(** * ClassNode-Quiz: the AI quiz-generation pipeline

    A shallow embedding of the two edge-function handlers that generate a
    quiz with a text-generation model and persist it
    ([supabase/functions/generate-quiz-ai/index.ts], the Gemini-backed
    handler, called V1 below, and the OpenAI-backed handler, called V2), and
    of the client-side submit handler of the "create quiz with AI" page.

    Conventions.
    - A JavaScript string is a [string]: one [ascii] per code unit, for code
      units in U+0000..U+00FF.
    - A JavaScript number obtained from [JSON.parse] is the rational value of
      the double ([Q]); the comparisons the code performs on it (against 0
      and 3) are exact on doubles.
    - The external collaborators (identity provider, relational store, model
      API, random source) are a [World] record of oracles; the relational
      store itself is an explicit state threaded through the handler, and
      every outbound call is logged in a chronological trace. *)

From Stdlib Require Import String Ascii List ZArith QArith Qround Bool Lia Arith.
From Stdlib Require Import Numbers.DecimalString.
Import ListNotations.

Local Close Scope Q_scope.
Local Open Scope list_scope.
Local Open Scope string_scope.
Local Open Scope nat_scope.

(** ** JavaScript strings *)

Module JsString.

(** The double-quote character and the line feed, for template text. *)
Definition dq : string := String (ascii_of_nat 34) EmptyString.
Definition nl : string := String (ascii_of_nat 10) EmptyString.
Definition backtick : ascii := ascii_of_nat 96.
Definition fence : string :=
  String backtick (String backtick (String backtick EmptyString)).

(** [`${n}`] for an integer-valued number of magnitude below 1e21; from
    1e21 on the engine switches to exponent form, which this rendering
    does not follow. *)
Definition of_Z (z : Z) : string := NilZero.string_of_int (Z.to_int z).
Definition of_nat (n : nat) : string := NilZero.string_of_uint (Nat.to_uint n).

(** White space and line terminators removed by [String.prototype.trim],
    within U+0000..U+00FF: TAB, LF, VT, FF, CR, SP and NBSP. *)
Definition isWhiteSpace (c : ascii) : bool :=
  let n := nat_of_ascii c in
  ((9 <=? n) && (n <=? 13)) || (n =? 32) || (n =? 160).

Fixpoint trimStart (s : string) : string :=
  match s with
  | EmptyString => EmptyString
  | String c t => if isWhiteSpace c then trimStart t else s
  end.

Fixpoint trimEnd (s : string) : string :=
  match s with
  | EmptyString => EmptyString
  | String c t =>
      let t' := trimEnd t in
      if isWhiteSpace c && (t' =? "")%string then EmptyString else String c t'
  end.

Definition trim (s : string) : string := trimEnd (trimStart s).

(** [s.slice(n)] *)
Fixpoint drop (n : nat) (s : string) : string :=
  match n, s with
  | O, _ => s
  | S _, EmptyString => EmptyString
  | S n', String _ t => drop n' t
  end.

(** [s.substring(from, to)] for [from <= to]. *)
Definition substring (from to : nat) (s : string) : string :=
  String.substring from (to - from) s.

(** [s.replace(pat, rep)] with a string pattern: the first occurrence only. *)
Fixpoint replaceFirst (pat rep s : string) : string :=
  if prefix pat s then rep ++ drop (String.length pat) s
  else match s with
       | EmptyString => EmptyString
       | String c t => String c (replaceFirst pat rep t)
       end.

(** [s.replace(/pat\n?/g, '')] for a literal, non-empty [pat]: every
    match, found left to right, is removed together with one line feed
    directly after it.  [skip] counts the characters of the current match
    still to be dropped, [lf] records that a match has just ended. *)
Fixpoint removeAllAux (pat : string) (skip : nat) (lf : bool) (s : string)
  : string :=
  match s with
  | EmptyString => EmptyString
  | String c t =>
      match skip with
      | S k => removeAllAux pat k lf t
      | O =>
          if lf && Ascii.eqb c (ascii_of_nat 10) then removeAllAux pat 0 false t
          else if prefix pat s then removeAllAux pat (String.length pat - 1) true t
          else String c (removeAllAux pat 0 false t)
      end
  end.

Definition removeAll (pat s : string) : string := removeAllAux pat 0 false s.

(** [toUpperCase] and [toLowerCase] on the ASCII letters (the handlers
    apply them to base-36 digits and to the complexity tag only). *)
Definition upperChar (c : ascii) : ascii :=
  let n := nat_of_ascii c in
  if (97 <=? n) && (n <=? 122) then ascii_of_nat (n - 32) else c.

Definition lowerChar (c : ascii) : ascii :=
  let n := nat_of_ascii c in
  if (65 <=? n) && (n <=? 90) then ascii_of_nat (n + 32) else c.

Fixpoint mapChars (f : ascii -> ascii) (s : string) : string :=
  match s with
  | EmptyString => EmptyString
  | String c t => String (f c) (mapChars f t)
  end.

Definition toUpperCase : string -> string := mapChars upperChar.
Definition toLowerCase : string -> string := mapChars lowerChar.

(** Every character of [s] satisfies [p]. *)
Fixpoint every (p : ascii -> bool) (s : string) : bool :=
  match s with
  | EmptyString => true
  | String c t => p c && every p t
  end.

(** [s.includes(pat)] *)
Fixpoint includes (pat s : string) : bool :=
  prefix pat s ||
  match s with
  | EmptyString => false
  | String _ t => includes pat t
  end.

Definition isUpperAlnum (c : ascii) : bool :=
  let n := nat_of_ascii c in
  ((48 <=? n) && (n <=? 57)) || ((65 <=? n) && (n <=? 90)).

End JsString.

(** ** JavaScript values produced by [JSON.parse] *)

#[local] Set Warnings "-register-all".

Inductive JsVal : Type :=
| JUndefined
| JNull
| JBool (b : bool)
| JNum (q : Q)
| JStr (s : string)
| JArr (items : list JsVal)
| JObj (fields : list (string * JsVal)).

(** Values thrown inside the handlers; only [message] is ever read. *)
Inductive JsError : Type :=
| Error (message : string)
| TypeError (message : string)
| SyntaxError (message : string).

Definition message (e : JsError) : string :=
  match e with
  | Error m | TypeError m | SyntaxError m => m
  end.

Module Js.

(** ToBoolean *)
Definition truthy (v : JsVal) : bool :=
  match v with
  | JUndefined | JNull => false
  | JBool b => b
  | JNum q => negb (Qeq_bool q 0%Q)
  | JStr s => negb (s =? "")%string
  | JArr _ | JObj _ => true
  end.

Fixpoint lookup (k : string) (fields : list (string * JsVal)) : JsVal :=
  match fields with
  | [] => JUndefined
  | (k', v) :: rest => if (k =? k')%string then v else lookup k rest
  end.

(** [v.k] for one of the keys [text], [options], [correctOption]: reading
    a property of [null] or [undefined] throws, a primitive or an array
    has no such property. *)
Definition get (v : JsVal) (k : string) : JsError + JsVal :=
  match v with
  | JNull =>
      inl (TypeError ("Cannot read properties of null (reading '" ++ k ++ "')"))
  | JUndefined =>
      inl (TypeError ("Cannot read properties of undefined (reading '" ++ k ++ "')"))
  | JObj fields => inr (lookup k fields)
  | _ => inr JUndefined
  end.

Definition isArray (v : JsVal) : bool :=
  match v with JArr _ => true | _ => false end.

(** [v.length] of a value already known to be an array. *)
Definition arrayLength (v : JsVal) : nat :=
  match v with JArr l => List.length l | _ => 0 end.

Definition isNumber (v : JsVal) : bool :=
  match v with JNum _ => true | _ => false end.

Definition lt (a b : Q) : bool := negb (Qle_bool b a).

End Js.

(** ** Data model *)

Inductive Complexity : Type := Easy | Medium | Hard.

Definition Complexity_toString (c : Complexity) : string :=
  match c with Easy => "Easy" | Medium => "Medium" | Hard => "Hard" end.

(** [interface QuizParams] *)
Record QuizParams : Type := mkQuizParams {
  subject : string;
  topic : string;
  numQuestions : Z;
  complexity : Complexity;
  timePerQuestion : Z;
  title : option string;
  description : option string
}.

(** The data model's invariant on caller-supplied parameters. *)
Definition QuizParams_valid (p : QuizParams) : Prop :=
  subject p <> "" /\ topic p <> "" /\
  (1 <= numQuestions p <= 20)%Z /\ (0 < timePerQuestion p)%Z.

Record User : Type := mkUser { user_id : string; email : string }.

(** The object handed to [from('quizzes').insert]. *)
Record NewQuiz : Type := mkNewQuiz {
  nq_title : string;
  nq_description : string;
  nq_time_per_question : Z;
  nq_room_code : string;
  nq_created_by : string;
  nq_quiz_type : string
}.

(** A row of table [quizzes]: the inserted columns and the identifier the
    store assigns. *)
Record QuizRow : Type := mkQuizRow { id : nat; columns : NewQuiz }.

(** A row of table [quiz_questions], as built by [questionsToInsert]. *)
Record QuestionRow : Type := mkQuestionRow {
  quiz_id : nat;
  text : JsVal;
  options : JsVal;
  correct_option : JsVal;
  order_num : nat
}.

Record Store : Type := mkStore {
  quizzes : list QuizRow;
  quiz_questions : list QuestionRow;
  next_id : nat
}.

(** ** Requests and responses *)

Record Request : Type := mkRequest {
  method : string;
  authorization : option string;     (* req.headers.get('Authorization') *)
  json : JsError + QuizParams        (* await req.json() *)
}.

Record QuizSummary : Type := mkQuizSummary {
  qs_id : nat;
  qs_title : string;
  qs_description : string;
  qs_roomCode : string;
  questionsCount : nat
}.

Inductive Body : Type :=
| NoBody
| FailureBody (error : string)                               (* success: false *)
| SuccessBody (quiz : QuizSummary) (questions : list JsVal). (* success: true *)

Record Response : Type := mkResponse { status : Z; body : Body }.

Definition isSuccess (r : Response) : bool :=
  match body r with SuccessBody _ _ => true | _ => false end.

Definition isFailure (r : Response) : bool :=
  match body r with FailureBody _ => true | _ => false end.

(** ** The outside world *)

(** What one call of the text-generation API comes back with. *)
Inductive GenerationReply : Type :=
| FetchRejected (e : JsError)     (* fetch itself rejects *)
| HttpStatus (code : Z)           (* a response with [ok] false *)
| NoCompletion                    (* envelope with an empty list of completions *)
| CompletionNotText               (* a completion without its text *)
| Completion (raw : string).

Inductive Vendor : Type := Gemini | OpenAI.

Record World : Type := mkWorld {
  (* auth.getUser(token): the user, or None on authError / missing user *)
  auth_getUser : string -> option User;
  (* from('teachers').select('id').eq('id', uid).single(): row found, no error *)
  teachers_single : string -> bool;
  env_GEMINI_API_KEY : option string;
  env_OPENAI_API_KEY : option string;
  generate : Vendor -> string -> GenerationReply;
  (* Math.random(), given by the base-36 digits of its fraction as
     Number.prototype.toString(36) renders them; [] is the value 0 *)
  Math_random : list N;
  (* whether the store accepts the two inserts *)
  quizzes_insert_ok : NewQuiz -> bool;
  quiz_questions_insert_ok : list QuestionRow -> bool;
  (* whether the store carries out the delete of a quiz row *)
  quizzes_delete_ok : nat -> bool
}.

(** Outbound calls, in the order they are made. *)
Inductive Event : Type :=
| EvGetUser (token : string)
| EvTeacherLookup (uid : string)
| EvGenerate (v : Vendor) (prompt : string)
| EvInsertQuiz (nq : NewQuiz) (created : option nat)
| EvInsertQuestions (rows : list QuestionRow) (ok : bool)
| EvDeleteQuiz (qid : nat).

Definition isStoreWrite (e : Event) : bool :=
  match e with
  | EvInsertQuiz _ _ | EvInsertQuestions _ _ | EvDeleteQuiz _ => true
  | _ => false
  end.

(** ** The handler monad: store and trace are threaded, a throw keeps them *)

Record HandlerState : Type := mkState { store : Store; trace : list Event }.

Definition M (A : Type) : Type := HandlerState -> (JsError + A) * HandlerState.

Definition ret {A} (a : A) : M A := fun s => (inr a, s).

Definition throw {A} (e : JsError) : M A := fun s => (inl e, s).

Definition bind {A B} (m : M A) (k : A -> M B) : M B :=
  fun s => match m s with
           | (inl e, s') => (inl e, s')
           | (inr a, s') => k a s'
           end.

Definition catch {A} (m : M A) (h : JsError -> M A) : M A :=
  fun s => match m s with
           | (inl e, s') => h e s'
           | r => r
           end.

Definition lift {A} (r : JsError + A) : M A := fun s => (r, s).

Definition log (e : Event) : M unit :=
  fun s => (inr tt, mkState (store s) (trace s ++ [e])%list).

Declare Scope handler_scope.
Delimit Scope handler_scope with handler.
Notation "x <- c ;; k" := (bind c (fun x => k))
  (at level 100, c at next level, right associativity) : handler_scope.
Notation "c ;; k" := (bind c (fun _ => k))
  (at level 100, right associativity) : handler_scope.
Local Open Scope handler_scope.

(** ** Outbound calls *)

Definition call_getUser (w : World) (token : string) : M (option User) :=
  log (EvGetUser token) ;; ret (auth_getUser w token).

Definition call_teachers (w : World) (uid : string) : M bool :=
  log (EvTeacherLookup uid) ;; ret (teachers_single w uid).

Definition call_generate (w : World) (v : Vendor) (prompt : string)
  : M GenerationReply :=
  log (EvGenerate v prompt) ;; ret (generate w v prompt).

(** [from('quizzes').insert(nq).select().single()]: the created row, or
    [None] when [quizError || !quizData]. *)
Definition insert_quiz (w : World) (nq : NewQuiz) : M (option QuizRow) :=
  fun s =>
    let st := store s in
    if quizzes_insert_ok w nq then
      let row := mkQuizRow (next_id st) nq in
      (inr (Some row),
       mkState (mkStore (quizzes st ++ [row]) (quiz_questions st) (S (next_id st)))
               (trace s ++ [EvInsertQuiz nq (Some (next_id st))]))
    else
      (inr None, mkState st (trace s ++ [EvInsertQuiz nq None])).

(** [from('quiz_questions').insert(rows)]: returns [questionsError]; a
    rejected batch leaves the table as it was. *)
Definition insert_questions (w : World) (rows : list QuestionRow) : M bool :=
  fun s =>
    let st := store s in
    if quiz_questions_insert_ok w rows then
      (inr false,
       mkState (mkStore (quizzes st) (quiz_questions st ++ rows) (next_id st))
               (trace s ++ [EvInsertQuestions rows true]))
    else
      (inr true, mkState st (trace s ++ [EvInsertQuestions rows false])).

(** [from('quizzes').delete().eq('id', qid)]: the store removes the row, or
    refuses and leaves the table as it was.  The handlers discard what the
    call returns, so nothing of the outcome comes back. *)
Definition delete_quiz (w : World) (qid : nat) : M unit :=
  fun s =>
    let st := store s in
    if quizzes_delete_ok w qid then
      (inr tt,
       mkState (mkStore (filter (fun r => negb (id r =? qid)) (quizzes st))
                        (quiz_questions st) (next_id st))
               (trace s ++ [EvDeleteQuiz qid]))
    else
      (inr tt, mkState st (trace s ++ [EvDeleteQuiz qid])).

(** ** Prompt builders *)

Import JsString.

Definition quoted (s : string) : string := dq ++ s ++ dq.

Definition lines (l : list string) : string := String.concat nl l.

Definition prompt_v1 (params : QuizParams) : string :=
  lines [
    "Create " ++ of_Z (numQuestions params) ++ " multiple choice questions about "
      ++ topic params ++ " in " ++ subject params ++ ". ";
    "    Difficulty level: " ++ Complexity_toString (complexity params);
    "    ";
    "    Requirements:";
    "    - Each question should have exactly 4 options (A, B, C, D)";
    "    - Questions should be clear and educational";
    "    - Options should be plausible but only one correct";
    "    - Cover different aspects of the topic";
    "    - Appropriate for "
      ++ toLowerCase (Complexity_toString (complexity params)) ++ " level students";
    "    ";
    "    Format your response as a JSON array with this exact structure:";
    "    [";
    "      {";
    "        " ++ quoted "text" ++ ": " ++ quoted "Question text here?" ++ ",";
    "        " ++ quoted "options" ++ ": [" ++ quoted "Option A" ++ ", "
      ++ quoted "Option B" ++ ", " ++ quoted "Option C" ++ ", "
      ++ quoted "Option D" ++ "],";
    "        " ++ quoted "correctOption" ++ ": 0";
    "      }";
    "    ]";
    "    ";
    "    Where correctOption is the index (0-3) of the correct answer.";
    "    ";
    "    Return only the JSON array, no additional text or formatting."
  ].

Definition prompt_v2 (params : QuizParams) : string :=
  lines [
    "";
    "Create " ++ of_Z (numQuestions params) ++ " multiple choice questions about "
      ++ topic params ++ " ";
    "in " ++ subject params ++ ". Difficulty: "
      ++ Complexity_toString (complexity params) ++ ".";
    "";
    "Return ONLY a JSON array in this exact format (no markdown):";
    "";
    "[";
    "  {";
    "    " ++ quoted "text" ++ ": " ++ quoted "Question?" ++ ",";
    "    " ++ quoted "options" ++ ": [" ++ quoted "A" ++ ", " ++ quoted "B" ++ ", "
      ++ quoted "C" ++ ", " ++ quoted "D" ++ "],";
    "    " ++ quoted "correctOption" ++ ": 0";
    "  }";
    "]";
    ""
  ].

(** ** Generation client: from the reply to the text handed to [JSON.parse] *)

Definition vendorName (v : Vendor) : string :=
  match v with Gemini => "Gemini" | OpenAI => "OpenAI" end.

(** V1, lines 140-157: status check, envelope check, then
    [.replace(/```json\n?/g, '').replace(/```\n?/g, '').trim()]. *)
Definition clean_v1 (generatedText : string) : string :=
  trim (removeAll fence (removeAll (fence ++ "json") generatedText)).

Definition completion_v1 (reply : GenerationReply) : JsError + string :=
  match reply with
  | FetchRejected e => inl e
  | HttpStatus code => inl (Error ("Gemini API error: " ++ of_Z code))
  | NoCompletion => inl (Error "Invalid response from Gemini API")
  | CompletionNotText =>
      (* generatedText.substring on a part without text *)
      inl (TypeError "Cannot read properties of undefined (reading 'substring')")
  | Completion raw => inr (clean_v1 raw)
  end.

(** V2, lines 169-176: status check, then
    [aiData.choices[0].message.content.trim()]. *)
Definition clean_v2 (generatedText : string) : string := trim generatedText.

Definition completion_v2 (reply : GenerationReply) : JsError + string :=
  match reply with
  | FetchRejected e => inl e
  | HttpStatus code => inl (Error ("OpenAI API error: " ++ of_Z code))
  | NoCompletion =>
      (* aiData.choices[0].message on an empty choices array *)
      inl (TypeError "Cannot read properties of undefined (reading 'message')")
  | CompletionNotText =>
      (* content.trim() on a message without content *)
      inl (TypeError "Cannot read properties of undefined (reading 'trim')")
  | Completion raw => inr (clean_v2 raw)
  end.

(** ** Structural validation (V1, lines 172-187) *)

(** [array.map((q, index) => f(q, index))] with a callback that may throw:
    elements are visited in order and the first throw aborts the map. *)
Fixpoint mapWithIndex {A} (f : JsVal -> nat -> JsError + A) (index : nat)
  (l : list JsVal) : JsError + list A :=
  match l with
  | [] => inr []
  | q :: rest =>
      match f q index with
      | inl e => inl e
      | inr a =>
          match mapWithIndex f (S index) rest with
          | inl e => inl e
          | inr rest' => inr (a :: rest')
          end
      end
  end.

Definition invalidStructure (index : nat) : JsError :=
  Error ("Invalid question structure at index " ++ of_nat index).

Definition invalidCorrectOption (index : nat) : JsError :=
  Error ("Invalid correct option at question " ++ of_nat (index + 1)).

Definition outOfRange (v : JsVal) : bool :=
  match v with
  | JNum c => Js.lt c 0%Q || Js.lt 3%Q c
  | _ => false
  end.

Definition validateQuestion (q : JsVal) (index : nat) : JsError + JsVal :=
  match Js.get q "text" with
  | inl e => inl e
  | inr q_text =>
      if negb (Js.truthy q_text) then inl (invalidStructure index) else
      match Js.get q "options" with
      | inl e => inl e
      | inr q_options =>
          if negb (Js.isArray q_options) then inl (invalidStructure index) else
          if negb (Js.arrayLength q_options =? 4) then inl (invalidStructure index) else
          match Js.get q "correctOption" with
          | inl e => inl e
          | inr q_correctOption =>
              if negb (Js.isNumber q_correctOption)
              then inl (invalidStructure index)
              else if outOfRange q_correctOption
              then inl (invalidCorrectOption index)
              else inr (JObj [("text", q_text);
                              ("options", q_options);
                              ("correctOption", q_correctOption)])
          end
      end
  end.

Definition validateQuestions (questions : list JsVal) : JsError + list JsVal :=
  mapWithIndex validateQuestion 0 questions.

(** ** Room code (V1 line 190, V2 lines 195-198) *)

Definition digitChar (d : N) : ascii :=
  match String.get (N.to_nat d) "0123456789abcdefghijklmnopqrstuvwxyz" with
  | Some c => c
  | None => "0"%char
  end.

(** [x.toString(36)] for [x] in [0,1) with fraction digits [digits]. *)
Definition toString36 (digits : list N) : string :=
  match digits with
  | [] => "0"
  | _ => "0." ++ string_of_list_ascii (List.map digitChar digits)
  end.

Definition roomCodeOf (random : list N) : string :=
  toUpperCase (substring 2 8 (toString36 random)).

(** The exact base-36 expansion of the fraction [num / den], for
    [0 <= num < den], cut after [fuel] digits.  [toString(36)] prints the
    shortest digit string that identifies the double, which in general is
    shorter than the exact expansion; the two coincide when the exact
    expansion is as short as that of 1/2, the one value this is used for. *)
Fixpoint fractionDigits36 (fuel : nat) (num den : N) : list N :=
  match fuel with
  | O => []
  | S fuel' =>
      if (num =? 0)%N then []
      else let d := (36 * num / den)%N in
           d :: fractionDigits36 fuel' (36 * num - d * den)%N den
  end.

(** ** Persistence (V1 lines 189-250, V2 lines 194-264) *)

(** [a || b] on strings, and on an optional string field. *)
Definition orElse (a b : string) : string := if (a =? "")%string then b else a.

Definition orDefault (field : option string) (b : string) : string :=
  match field with
  | Some a => orElse a b
  | None => b
  end.

Definition quizTitle (params : QuizParams) : string :=
  orDefault (title params)
    ("AI Generated: " ++ subject params ++ " - " ++ topic params).

Definition quizDescription (params : QuizParams) : string :=
  orDefault (description params)
    ("AI-generated quiz on " ++ topic params ++ " ("
       ++ Complexity_toString (complexity params) ++ " level)").

(** [questions.map((q, index) => ({ quiz_id, text: q.text, ... }))] *)
Definition questionRow (quizId : nat) (q : JsVal) (index : nat)
  : JsError + QuestionRow :=
  match Js.get q "text" with
  | inl e => inl e
  | inr q_text =>
      match Js.get q "options" with
      | inl e => inl e
      | inr q_options =>
          match Js.get q "correctOption" with
          | inl e => inl e
          | inr q_correctOption =>
              inr (mkQuestionRow quizId q_text q_options q_correctOption (index + 1))
          end
      end
  end.

Definition questionsToInsert (quizId : nat) (questions : list JsVal)
  : JsError + list QuestionRow :=
  mapWithIndex (questionRow quizId) 0 questions.

Definition failure (code : Z) (msg : string) : Response :=
  mkResponse code (FailureBody msg).

(** The two handlers share this block verbatim, up to the message thrown
    after the compensating delete. *)
Definition persist (w : World) (user : User) (params : QuizParams)
  (questions : list JsVal) (questionsFailed : string) : M Response :=
  let roomCode := roomCodeOf (Math_random w) in
  quizData <- insert_quiz w
    (mkNewQuiz (quizTitle params) (quizDescription params)
               (timePerQuestion params) roomCode (user_id user) "classnode") ;;
  match quizData with
  | None => throw (Error "Failed to create quiz")
  | Some quizData =>
      rows <- lift (questionsToInsert (id quizData) questions) ;;
      questionsError <- insert_questions w rows ;;
      if (questionsError : bool) then
        delete_quiz w (id quizData) ;;
        throw (Error questionsFailed)
      else
        ret (mkResponse 200
               (SuccessBody
                  (mkQuizSummary (id quizData)
                                 (nq_title (columns quizData))
                                 (nq_description (columns quizData))
                                 (nq_room_code (columns quizData))
                                 (List.length questions))
                  questions))
  end.

(** ** The two handlers *)

Inductive Variant : Type := V1 | V2.

Section Handlers.

(** [JSON.parse]: [None] when it throws. *)
Variable JSON_parse : string -> option JsVal.

(** [JSON.parse] in its try block, then
    [!Array.isArray(questions) || questions.length === 0]. *)
Definition parseQuestions (generatedText parseFailed : string)
  : JsError + list JsVal :=
  match JSON_parse generatedText with
  | None => inl (Error parseFailed)
  | Some (JArr (q :: rest)) => inr (q :: rest)
  | Some _ => inl (Error "AI did not generate valid questions")
  end.

Definition internalError (error : JsError) : M Response :=
  ret (failure 500 (orElse (message error) "Internal server error")).

(** supabase/functions/generate-quiz-ai/index.ts, lines 27-262. *)
Definition serve_v1 (w : World) (req : Request) : M Response :=
  if (method req =? "OPTIONS")%string then ret (mkResponse 200 NoBody) else
  catch
    (match authorization req with
     | None | Some EmptyString => ret (failure 401 "No authorization header")
     | Some authHeader =>
         let token := replaceFirst "Bearer " "" authHeader in
         authUser <- call_getUser w token ;;
         match authUser with
         | None => ret (failure 401 "Authentication failed")
         | Some user =>
             teacherData <- call_teachers w (user_id user) ;;
             if negb teacherData
             then ret (failure 403 "Access denied: Teachers only")
             else
               params <- lift (json req) ;;
               let prompt := prompt_v1 params in
               match env_GEMINI_API_KEY w with
               | None | Some EmptyString =>
                   throw (Error "Gemini API key not configured")
               | Some _ =>
                   reply <- call_generate w Gemini prompt ;;
                   generatedText <- lift (completion_v1 reply) ;;
                   questions <- lift (parseQuestions generatedText
                                        "Failed to parse AI-generated questions") ;;
                   questions <- lift (validateQuestions questions) ;;
                   persist w user params questions
                           "Failed to create quiz questions"
               end
         end
     end)
    internalError.

(** The OpenAI-backed handler, lines 86-280 of its file. *)
Definition serve_v2 (w : World) (req : Request) : M Response :=
  if (method req =? "OPTIONS")%string then ret (mkResponse 200 NoBody) else
  catch
    (match authorization req with
     | None | Some EmptyString => throw (Error "No authorization header")
     | Some authHeader =>
         let token := replaceFirst "Bearer " "" authHeader in
         authUser <- call_getUser w token ;;
         match authUser with
         | None => throw (Error "Authentication failed")
         | Some user =>
             teacherData <- call_teachers w (user_id user) ;;
             if negb teacherData
             then throw (Error "Access denied: Teachers only")
             else
               params <- lift (json req) ;;
               let prompt := prompt_v2 params in
               match env_OPENAI_API_KEY w with
               | None | Some EmptyString =>
                   throw (Error "OPENAI_API_KEY not configured in Supabase secrets")
               | Some _ =>
                   reply <- call_generate w OpenAI prompt ;;
                   generatedText <- lift (completion_v2 reply) ;;
                   questions <- lift (parseQuestions generatedText
                                        "AI returned invalid JSON") ;;
                   persist w user params questions "Failed to save questions"
               end
         end
     end)
    internalError.

Definition serve (v : Variant) : World -> Request -> M Response :=
  match v with V1 => serve_v1 | V2 => serve_v2 end.

(** One request against store [st]: the response, the store afterwards and
    the outbound calls made.  The handlers catch every throw, so a
    response is always produced. *)
Definition run (v : Variant) (w : World) (req : Request) (st : Store)
  : Response * Store * list Event :=
  match serve v w req (mkState st []) with
  | (inr r, s) => (r, store s, trace s)
  | (inl e, s) => (failure 500 (message e), store s, trace s)
  end.

End Handlers.

(** ** The client: [handleSubmit] of the "create quiz with AI" page *)

Inductive InvokeResult : Type :=
| InvokeError (msg : string)     (* response.error, with its message *)
| InvokeData (data : Body).      (* response.data *)

Record ClientWorld : Type := mkClientWorld {
  (* refreshSession() gave no error and a session with an access token *)
  refreshSession_ok : bool;
  (* getSession() gave a session with an access token *)
  getSession_ok : bool;
  functions_invoke : string -> QuizParams -> InvokeResult
}.

Inductive ClientEvent : Type :=
| ToastError (msg : string)
| ToastSuccess (msg : string)
| SetLoading (b : bool)
| Navigate (path : string)
| NetRefreshSession
| NetGetSession
| NetInvoke (fn : string) (formData : QuizParams).

Definition isNetworkCall (e : ClientEvent) : bool :=
  match e with
  | NetRefreshSession | NetGetSession | NetInvoke _ _ => true
  | _ => false
  end.

(** The body of the try block: the events it produces and the error it
    throws, if any. *)
Definition submitTry (cw : ClientWorld) (formData : QuizParams)
  : list ClientEvent * option JsError :=
  let session :=
    if refreshSession_ok cw then ([NetRefreshSession], None)
    else if getSession_ok cw then ([NetRefreshSession; NetGetSession], None)
    else ([NetRefreshSession; NetGetSession],
          Some (Error "Please log in again to continue")) in
  match session with
  | (evs, Some e) => (evs, Some e)
  | (evs, None) =>
      let evs := (evs ++ [NetInvoke "generate-quiz-ai" formData])%list in
      match functions_invoke cw "generate-quiz-ai" formData with
      | InvokeError msg => (evs, Some (Error (orElse msg "Failed to generate quiz")))
      | InvokeData NoBody => (evs, Some (Error "Quiz generation failed"))
      | InvokeData (FailureBody err) =>
          (evs, Some (Error (orElse err "Quiz generation failed")))
      | InvokeData (SuccessBody quiz _) =>
          ((evs ++ [ToastSuccess ("Quiz " ++ quoted (qs_title quiz)
                                   ++ " created successfully with "
                                   ++ of_nat (questionsCount quiz) ++ " questions!");
                    Navigate "/teacher"])%list, None)
      end
  end.

Definition submitCatch (error : JsError) : ClientEvent :=
  if includes "401" (message error)
  then ToastError "Session expired. Please log in again."
  else ToastError (message error).

Definition handleSubmit (cw : ClientWorld) (formData : QuizParams)
  : list ClientEvent :=
  if (trim (subject formData) =? "")%string || (trim (topic formData) =? "")%string
  then [ToastError "Please fill in all required fields"]
  else if (numQuestions formData <? 1)%Z || (numQuestions formData >? 20)%Z
  then [ToastError "Number of questions must be between 1 and 20"]
  else
    match submitTry cw formData with
    | (evs, Some error) =>
        ([SetLoading true] ++ evs ++ [submitCatch error; SetLoading false])%list
    | (evs, None) => ([SetLoading true] ++ evs ++ [SetLoading false])%list
    end.

(** ** Fixtures: concrete worlds, requests and model outputs *)

Module Fixtures.

Definition teacher : User := mkUser "teacher-1" "teacher@example.com".
Definition student : User := mkUser "student-7" "student@example.com".

Definition algebra (n : Z) : QuizParams :=
  mkQuizParams "Mathematics" "Algebra" n Easy 30 None None.

Definition post (auth : option string) (params : QuizParams) : Request :=
  mkRequest "POST" auth (inr params).

(** A well-formed question, as text and as the value [JSON.parse] gives. *)
Definition goodQuestion_text : string :=
  "{" ++ quoted "text" ++ ":" ++ quoted "2+2?" ++ ","
      ++ quoted "options" ++ ":[" ++ quoted "1" ++ "," ++ quoted "2" ++ ","
      ++ quoted "3" ++ "," ++ quoted "4" ++ "],"
      ++ quoted "correctOption" ++ ":3}".

Definition goodQuestion : JsVal :=
  JObj [("text", JStr "2+2?");
        ("options", JArr [JStr "1"; JStr "2"; JStr "3"; JStr "4"]);
        ("correctOption", JNum 3%Q)].

(** A question with three options and an answer index of 5. *)
Definition badQuestion_text : string :=
  "{" ++ quoted "text" ++ ":" ++ quoted "Q" ++ ","
      ++ quoted "options" ++ ":[" ++ quoted "a" ++ "," ++ quoted "b" ++ ","
      ++ quoted "c" ++ "],"
      ++ quoted "correctOption" ++ ":5}".

Definition badQuestion : JsVal :=
  JObj [("text", JStr "Q");
        ("options", JArr [JStr "a"; JStr "b"; JStr "c"]);
        ("correctOption", JNum 5%Q)].

(** A question the validator lets through although its text is a number,
    its options are numbers and its answer index is 1.5. *)
Definition looseQuestion : JsVal :=
  JObj [("text", JNum 5%Q);
        ("options", JArr [JNum 1%Q; JNum 2%Q; JNum 3%Q; JNum 4%Q]);
        ("correctOption", JNum (3 # 2)%Q)].

Definition oneGood_text : string := "[" ++ goodQuestion_text ++ "]".
Definition oneBad_text : string := "[" ++ badQuestion_text ++ "]".
Definition fenced_text : string :=
  fence ++ "json" ++ nl ++ oneGood_text ++ nl ++ fence.

(** [JSON.parse] on the documents above; every other text is left
    unparsed, which none of the examples below runs into. *)
Definition parse (s : string) : option JsVal :=
  if (s =? oneGood_text)%string then Some (JArr [goodQuestion])
  else if (s =? oneBad_text)%string then Some (JArr [badQuestion])
  else if (s =? "[null]")%string then Some (JArr [JNull])
  else None.

(** A world in which the bearer token [tok-teacher] belongs to a teacher,
    [tok-student] to a user who is none, the model answers [raw] whatever
    the prompt, the random value is [random] and the store accepts the
    quiz insert, the question insert when [questionsOk], and carries out
    every delete. *)
Definition world (raw : string) (random : list N) (questionsOk : bool)
  : World :=
  mkWorld
    (fun token =>
       if (token =? "tok-teacher")%string then Some teacher
       else if (token =? "tok-student")%string then Some student
       else None)
    (fun uid => (uid =? "teacher-1")%string)
    (Some "gemini-key") (Some "openai-key")
    (fun _ _ => Completion raw)
    random
    (fun _ => true)
    (fun _ => questionsOk)
    (fun _ => true).

(** A random value that renders as "0.9ud4ri2": any value with at least
    six base-36 digits would do. *)
Definition sixDigits : list N := [9; 30; 13; 4; 27; 18; 2]%N.

(** Math.random() = 0.5, which is 18/36: [(0.5).toString(36)] is "0.i". *)
Definition half : list N := fractionDigits36 53 1 2.

Definition emptyStore : Store := mkStore [] [] 1.

Definition clientWorld : ClientWorld :=
  mkClientWorld true true (fun _ _ => InvokeData (FailureBody "unused")).

End Fixtures.

(** ** What the validator accepts, stated on the parsed value *)

(** The question reduced to its three fields, as the validator returns it. *)
Definition normalize (q : JsVal) : JsVal :=
  match q with
  | JObj fields =>
      JObj [("text", Js.lookup "text" fields);
            ("options", Js.lookup "options" fields);
            ("correctOption", Js.lookup "correctOption" fields)]
  | _ => q
  end.

(** The criterion of the code: an object whose [text] is truthy, whose
    [options] is an array of length 4 and whose [correctOption] is a number
    between 0 and 3. *)
Definition accepts (q : JsVal) : bool :=
  match q with
  | JObj fields =>
      Js.truthy (Js.lookup "text" fields)
      && Js.isArray (Js.lookup "options" fields)
      && (Js.arrayLength (Js.lookup "options" fields) =? 4)
      && match Js.lookup "correctOption" fields with
         | JNum c => Qle_bool 0%Q c && Qle_bool c 3%Q
         | _ => false
         end
  | _ => false
  end.

(** The two tests of the validator taken apart (lines 174 and 178): the
    shape test, whose failure gives the structure error, and the range
    test, whose failure gives the range error. *)
Definition shapeOk (q : JsVal) : bool :=
  match q with
  | JObj fields =>
      Js.truthy (Js.lookup "text" fields)
      && Js.isArray (Js.lookup "options" fields)
      && (Js.arrayLength (Js.lookup "options" fields) =? 4)
      && Js.isNumber (Js.lookup "correctOption" fields)
  | _ => false
  end.

Definition inRange (q : JsVal) : bool :=
  match q with
  | JObj fields =>
      match Js.lookup "correctOption" fields with
      | JNum c => Qle_bool 0%Q c && Qle_bool c 3%Q
      | _ => false
      end
  | _ => false
  end.

(** The criterion in the words of the specification: [text] a non-empty
    string, [options] exactly four strings, [correctOption] an integer in
    [0,3]. *)
Definition isString (v : JsVal) : bool :=
  match v with JStr _ => true | _ => false end.

Definition isInteger (c : Q) : bool := Qeq_bool c (inject_Z (Qfloor c)).

Definition spec_validQuestion (q : JsVal) : bool :=
  match q with
  | JObj fields =>
      match Js.lookup "text" fields, Js.lookup "options" fields,
            Js.lookup "correctOption" fields with
      | JStr t, JArr opts, JNum c =>
          negb (t =? "")%string
          && (List.length opts =? 4) && List.forallb isString opts
          && isInteger c && Qle_bool 0%Q c && Qle_bool c 3%Q
      | _, _, _ => false
      end
  | _ => false
  end.

(** ** Vocabulary for the statements *)

Definition vendorOf (v : Variant) : Vendor :=
  match v with V1 => Gemini | V2 => OpenAI end.

Definition promptOf (v : Variant) : QuizParams -> string :=
  match v with V1 => prompt_v1 | V2 => prompt_v2 end.

Definition cleanOf (v : Variant) : string -> string :=
  match v with V1 => clean_v1 | V2 => clean_v2 end.

Definition apiKeyOf (v : Variant) (w : World) : option string :=
  match v with V1 => env_GEMINI_API_KEY w | V2 => env_OPENAI_API_KEY w end.

Definition configured (key : option string) : bool :=
  match key with
  | None | Some EmptyString => false
  | Some _ => true
  end.

Definition withTitle (t : option string) (p : QuizParams) : QuizParams :=
  mkQuizParams (subject p) (topic p) (numQuestions p) (complexity p)
               (timePerQuestion p) t (description p).

Definition withDescription (d : option string) (p : QuizParams) : QuizParams :=
  mkQuizParams (subject p) (topic p) (numQuestions p) (complexity p)
               (timePerQuestion p) (title p) d.

Definition defaultTitle (p : QuizParams) : string :=
  "AI Generated: " ++ subject p ++ " - " ++ topic p.

Definition defaultDescription (p : QuizParams) : string :=
  "AI-generated quiz on " ++ topic p ++ " ("
    ++ Complexity_toString (complexity p) ++ " level)".

(** The caller presents no usable credential: no (or an empty)
    Authorization header, or a token the identity provider rejects. *)
Definition unauthenticated (w : World) (req : Request) : bool :=
  match authorization req with
  | None | Some EmptyString => true
  | Some authHeader =>
      match auth_getUser w (replaceFirst "Bearer " "" authHeader) with
      | None => true
      | Some _ => false
      end
  end.

(** The caller is authenticated but has no teacher record. *)
Definition forbidden (w : World) (req : Request) : bool :=
  match authorization req with
  | None | Some EmptyString => false
  | Some authHeader =>
      match auth_getUser w (replaceFirst "Bearer " "" authHeader) with
      | None => false
      | Some user => negb (teachers_single w (user_id user))
      end
  end.

Definition isLowerAlnum (c : ascii) : bool :=
  let n := nat_of_ascii c in
  ((48 <=? n) && (n <=? 57)) || ((97 <=? n) && (n <=? 122)).

(** The number of backticks a string starts with. *)
Fixpoint leadingBackticks (s : string) : nat :=
  match s with
  | EmptyString => 0
  | String c t => if Ascii.eqb c backtick then S (leadingBackticks t) else 0
  end.

(** ** The client's authentication context ([AuthProvider]) *)

Module AuthContext.

Inductive UserRole : Type := Teacher | Student.

Definition UserRole_toString (r : UserRole) : string :=
  match r with Teacher => "teacher" | Student => "student" end.

(** [type User] of the context. *)
Record AuthUser : Type := mkAuthUser {
  au_id : string;
  au_name : string;
  au_role : UserRole;
  au_email : option string
}.

(** The provider's state hooks and the browser's [localStorage]. *)
Record State : Type := mkAuth {
  user : option AuthUser;
  roomCode : option string;
  isLoading : bool;
  isPasswordRecovery : bool;
  localStorage : list (string * string)
}.

Definition setUser (u : option AuthUser) (s : State) : State :=
  mkAuth u (roomCode s) (isLoading s) (isPasswordRecovery s) (localStorage s).

Definition setRoomCode (c : option string) (s : State) : State :=
  mkAuth (user s) c (isLoading s) (isPasswordRecovery s) (localStorage s).

Definition setIsLoading (b : bool) (s : State) : State :=
  mkAuth (user s) (roomCode s) b (isPasswordRecovery s) (localStorage s).

Definition setIsPasswordRecovery (b : bool) (s : State) : State :=
  mkAuth (user s) (roomCode s) (isLoading s) b (localStorage s).

(** [localStorage.getItem], [removeItem] and [setItem]. *)
Fixpoint getItem (key : string) (items : list (string * string))
  : option string :=
  match items with
  | [] => None
  | (k, v) :: rest => if (k =? key)%string then Some v else getItem key rest
  end.

Definition removeItem (key : string) (items : list (string * string))
  : list (string * string) :=
  filter (fun kv => negb (fst kv =? key)%string) items.

Definition setItem (key value : string) (items : list (string * string))
  : list (string * string) :=
  (key, value) :: removeItem key items.

Definition storageSet (key value : string) (s : State) : State :=
  mkAuth (user s) (roomCode s) (isLoading s) (isPasswordRecovery s)
         (setItem key value (localStorage s)).

Definition storageRemove (key : string) (s : State) : State :=
  mkAuth (user s) (roomCode s) (isLoading s) (isPasswordRecovery s)
         (removeItem key (localStorage s)).

(** [JSON.stringify] of a string: quotes, backslashes and control
    characters are escaped. *)
Definition hexDigit (n : nat) : ascii :=
  match String.get n "0123456789abcdef" with
  | Some c => c
  | None => "0"%char
  end.

Definition escapeChar (c : ascii) : string :=
  let n := nat_of_ascii c in
  if n =? 34 then "\" ++ dq
  else if n =? 92 then "\\"
  else if n =? 8 then "\b"
  else if n =? 12 then "\f"
  else if n =? 10 then "\n"
  else if n =? 13 then "\r"
  else if n =? 9 then "\t"
  else if n <? 32
       then "\u00" ++ String (hexDigit (n / 16)) (String (hexDigit (n mod 16)) "")
       else String c "".

Fixpoint escape (s : string) : string :=
  match s with
  | EmptyString => EmptyString
  | String c t => escapeChar c ++ escape t
  end.

Definition JSON_quote (s : string) : string := dq ++ escape s ++ dq.

(** [JSON.stringify(user)] for the object [{ id, name, role }] built by
    [login]. *)
Definition stringifyUser (u : AuthUser) : string :=
  "{" ++ quoted "id" ++ ":" ++ JSON_quote (au_id u) ++ ","
      ++ quoted "name" ++ ":" ++ JSON_quote (au_name u) ++ ","
      ++ quoted "role" ++ ":" ++ JSON_quote (UserRole_toString (au_role u))
      ++ "}".

(** What an awaited call comes back with: a value, or a rejection. *)
Inductive Outcome (A : Type) : Type :=
| Returned (a : A)
| Threw.
Arguments Returned {A} a.
Arguments Threw {A}.

(** [{ data: { user }, error }] of [signInWithPassword] and [signUp]: the
    error's message and the identifier of the user. *)
Record AuthReply : Type := mkAuthReply {
  reply_error : option string;
  reply_user : option string
}.

(** A row of table [teachers]. *)
Record TeacherRow : Type := mkTeacherRow {
  t_id : string;
  t_name : string;
  t_email : string
}.

(** [{ data, error }] of [from('teachers').select('*').eq(...).single()]. *)
Record TeacherReply : Type := mkTeacherReply {
  teacher_error : option string;
  teacher_data : option TeacherRow
}.

Record AuthWorld : Type := mkAuthWorld {
  signInWithPassword : string -> string -> Outcome AuthReply;
  signUp : string -> string -> string -> Outcome AuthReply;
  fetchTeacher : string -> Outcome TeacherReply;
  (* the room code of the teacher's active quiz, if there is one *)
  fetchActiveQuiz : string -> Outcome (option string);
  (* the error of the insert into table teachers *)
  insertTeacher : string -> string -> string -> Outcome (option string);
  (* the error object of signOut, resetPasswordForEmail and updateUser *)
  signOut : Outcome (option string);
  resetPasswordForEmail : string -> string -> Outcome (option string);
  updateUser : string -> Outcome (option string);
  origin : string
}.

Inductive UiEvent : Type :=
| ToastError (msg : string)
| ToastSuccess (msg : string)
| ToastInfo (msg : string)
| Navigate (path : string) (replace : bool)
| CallSignIn (email password : string)
| CallSignUp (name email password : string)
| CallFetchTeacher (uid : string)
| CallFetchActiveQuiz (uid : string)
| CallInsertTeacher (uid name email : string)
| CallSignOut
| CallResetEmail (email redirectTo : string)
| CallUpdateUser (password : string).

Definition isNavigate (e : UiEvent) : bool :=
  match e with Navigate _ _ => true | _ => false end.

Definition isToast (e : UiEvent) : bool :=
  match e with
  | ToastError _ | ToastSuccess _ | ToastInfo _ => true
  | _ => false
  end.

Definition isErrorToast (e : UiEvent) : bool :=
  match e with ToastError _ => true | _ => false end.

Definition teacherUser (row : TeacherRow) : AuthUser :=
  mkAuthUser (t_id row) (t_name row) Teacher (Some (t_email row)).

(** [teacherLogin(email, password)]: the boolean it resolves to, the state
    afterwards and what it did, in order. *)
Definition teacherLogin (w : AuthWorld) (email password : string) (s : State)
  : bool * State * list UiEvent :=
  let s1 := setIsLoading true s in
  let call := CallSignIn email password in
  match signInWithPassword w email password with
  | Threw => (false, setIsLoading false s1, [call; ToastError "Login failed"])
  | Returned (mkAuthReply (Some msg) _) =>
      (false, setIsLoading false s1,
       [call;
        ToastError (if (msg =? "Invalid login credentials")%string
                    then "Wrong credentials, please try again" else msg)])
  | Returned (mkAuthReply None None) => (false, setIsLoading false s1, [call])
  | Returned (mkAuthReply None (Some uid)) =>
      let calls := [call; CallFetchTeacher uid] in
      match fetchTeacher w uid with
      | Threw =>
          (false, setIsLoading false s1, List.app calls [ToastError "Login failed"])
      | Returned (mkTeacherReply (Some msg) _) =>
          (false, setIsLoading false s1, List.app calls [ToastError msg])
      | Returned (mkTeacherReply None None) =>
          (* teacherData.id on null *)
          (false, setIsLoading false s1, List.app calls [ToastError "Login failed"])
      | Returned (mkTeacherReply None (Some teacherData)) =>
          let s2 := setUser (Some (teacherUser teacherData)) s1 in
          let calls := List.app calls [CallFetchActiveQuiz (t_id teacherData)] in
          match fetchActiveQuiz w (t_id teacherData) with
          | Threw =>
              (false, setIsLoading false s2,
               List.app calls [ToastError "Login failed"])
          | Returned quizData =>
              (true, setIsLoading false (setRoomCode quizData s2),
               List.app calls
                 [ToastSuccess ("Welcome back, " ++ t_name teacherData ++ "!");
                  Navigate "/teacher" true])
          end
      end
  end.

(** [teacherSignup(name, email, password)]; [random] is the value of
    [Math.random()] drawn for the room code. *)
Definition teacherSignup (w : AuthWorld) (random : list N)
  (name email password : string) (s : State) : bool * State * list UiEvent :=
  let s1 := setIsLoading true s in
  let call := CallSignUp name email password in
  match signUp w name email password with
  | Threw => (false, setIsLoading false s1, [call; ToastError "Signup failed"])
  | Returned (mkAuthReply (Some msg) _) =>
      (false, setIsLoading false s1, [call; ToastError msg])
  | Returned (mkAuthReply None None) => (false, setIsLoading false s1, [call])
  | Returned (mkAuthReply None (Some uid)) =>
      let newRoomCode := roomCodeOf random in
      let calls := [call; CallInsertTeacher uid name email] in
      match insertTeacher w uid name email with
      | Threw =>
          (false, setIsLoading false s1, List.app calls [ToastError "Signup failed"])
      | Returned (Some msg) =>
          (false, setIsLoading false s1, List.app calls [ToastError msg])
      | Returned None =>
          (true,
           setIsLoading false
             (setRoomCode (Some newRoomCode)
                (setUser (Some (mkAuthUser uid name Teacher (Some email))) s1)),
           List.app calls
             [ToastSuccess ("Welcome, " ++ name
                              ++ "! Your account has been created.");
              Navigate "/teacher" true])
      end
  end.

(** [login(name, role)]; [now] is [Date.now()], [random1] and [random2]
    the values of the two [Math.random()] calls. *)
Definition login (now : Z) (random1 random2 : list N)
  (name : string) (role : UserRole) (s : State) : State * list UiEvent :=
  let u := mkAuthUser (of_Z now ++ String.substring 2 9 (toString36 random1))
                      name role None in
  let s1 := storageSet "quizUser" (stringifyUser u) (setUser (Some u) s) in
  match role with
  | Teacher =>
      let newRoomCode := roomCodeOf random2 in
      (storageSet "quizRoomCode" newRoomCode (setRoomCode (Some newRoomCode) s1),
       [ToastSuccess ("Logged in as teacher: " ++ name);
        Navigate "/teacher" false])
  | Student =>
      (s1, [ToastSuccess ("Logged in as student: " ++ name);
            Navigate "/student" false])
  end.

(** [logout()] *)
Definition logout (w : AuthWorld) (s : State) : State * list UiEvent :=
  match signOut w with
  | Threw => (s, [CallSignOut; ToastError "Failed to logout"])
  | Returned _ =>
      (storageRemove "quizRoomCode"
         (storageRemove "quizUser" (setRoomCode None (setUser None s))),
       [CallSignOut; Navigate "/" false; ToastInfo "Logged out successfully"])
  end.

(** [resetPassword(email)] *)
Definition resetPassword (w : AuthWorld) (email : string) (s : State)
  : bool * State * list UiEvent :=
  let call := CallResetEmail email (origin w ++ "/") in
  match resetPasswordForEmail w email (origin w ++ "/") with
  | Threw => (false, s, [call; ToastError "An unexpected error occurred"])
  | Returned (Some msg) =>
      (false, s, [call; ToastError (orElse msg "Failed to send reset email")])
  | Returned None =>
      (true, s, [call; ToastSuccess "Password reset email sent! Check your inbox."])
  end.

(** [updatePassword(newPassword)] *)
Definition updatePassword (w : AuthWorld) (newPassword : string) (s : State)
  : bool * State * list UiEvent :=
  let call := CallUpdateUser newPassword in
  match updateUser w newPassword with
  | Threw => (false, s, [call; ToastError "An unexpected error occurred"])
  | Returned (Some msg) =>
      (false, s, [call; ToastError (orElse msg "Failed to update password")])
  | Returned None =>
      (true, setIsPasswordRecovery false s,
       [call; ToastSuccess "Password updated successfully!"; Navigate "/" true])
  end.

(** The listener handed to [onAuthStateChange]; [session] tells whether
    the event came with a session. *)
Definition onAuthStateChange (event : string) (session : bool) (s : State)
  : State :=
  if (event =? "PASSWORD_RECOVERY")%string && session
  then setIsPasswordRecovery true s
  else if (event =? "SIGNED_IN")%string && session
          && negb (isPasswordRecovery s)
  then s
  else if (event =? "SIGNED_OUT")%string
  then setIsPasswordRecovery false (setRoomCode None (setUser None s))
  else s.

(** The effect of the "create quiz with AI" page that sends everyone but
    teachers away, and its guard on rendering the form. *)
Definition createQuizGuard (u : option AuthUser) : list UiEvent :=
  match u with
  | Some u' =>
      match au_role u' with
      | Teacher => []
      | Student => [Navigate "/" false]
      end
  | None => []
  end.

Definition initial : State := mkAuth None None true false [].

End AuthContext.

Definition isInvoke (e : ClientEvent) : bool :=
  match e with NetInvoke _ _ => true | _ => false end.

Definition isClientToast (e : ClientEvent) : bool :=
  match e with ToastError _ | ToastSuccess _ => true | _ => false end.

Definition isNavigation (e : ClientEvent) : bool :=
  match e with Navigate _ => true | _ => false end.

(** ** The quiz preview ([QuizPreviewModal]) *)

Module QuizPreview.

(** One rendered option: the code unit of its badge letter
    ([String.fromCharCode(65 + optionIndex)]), its text, and whether it is
    shown as the correct one ([optionIndex === question.correctOption]). *)
Record RenderedOption : Type := mkRendered {
  badge : nat;
  optionText : string;
  markedCorrect : bool
}.

(** [question.options.map((option, optionIndex) => ...)], from index
    [optionIndex] on. *)
Fixpoint renderFrom (optionIndex : nat) (options : list string)
  (correctOption : Q) : list RenderedOption :=
  match options with
  | [] => []
  | option :: rest =>
      mkRendered (65 + optionIndex) option
                 (Qeq_bool (inject_Z (Z.of_nat optionIndex)) correctOption)
      :: renderFrom (S optionIndex) rest correctOption
  end.

Definition renderOptions (options : list string) (correctOption : Q)
  : list RenderedOption :=
  renderFrom 0 options correctOption.

End QuizPreview.

(** ** Further fixtures *)

Module Scenarios.

(** A store that already holds a quiz and one of its questions. *)
Definition earlierQuiz : QuizRow :=
  mkQuizRow 1 (mkNewQuiz "Fractions" "Week 3" 20 "AB12CD" "teacher-1" "classnode").

Definition earlierQuestion : QuestionRow :=
  mkQuestionRow 1 (JStr "1/2 + 1/2?")
                (JArr [JStr "0"; JStr "1"; JStr "2"; JStr "3"]) (JNum 1%Q) 1.

Definition busyStore : Store := mkStore [earlierQuiz] [earlierQuestion] 2.

(** The world of [Fixtures.world] with a store that refuses the quiz
    insert. *)
Definition refusingWorld : World :=
  mkWorld
    (auth_getUser (Fixtures.world Fixtures.oneGood_text Fixtures.sixDigits true))
    (teachers_single (Fixtures.world Fixtures.oneGood_text Fixtures.sixDigits true))
    (Some "gemini-key") (Some "openai-key")
    (fun _ _ => Completion Fixtures.oneGood_text)
    Fixtures.sixDigits
    (fun _ => false)
    (fun _ => true)
    (fun _ => true).

(** The world of [Fixtures.world] with a store that accepts the quiz
    insert, refuses the question batch and then refuses the delete. *)
Definition stuckWorld : World :=
  mkWorld
    (auth_getUser (Fixtures.world Fixtures.oneGood_text Fixtures.sixDigits true))
    (teachers_single (Fixtures.world Fixtures.oneGood_text Fixtures.sixDigits true))
    (Some "gemini-key") (Some "openai-key")
    (fun _ _ => Completion Fixtures.oneGood_text)
    Fixtures.sixDigits
    (fun _ => true)
    (fun _ => false)
    (fun _ => false).

(** A well-formed question that carries an extra field and lists its
    fields in another order, as text and as the value [JSON.parse] gives. *)
Definition taggedQuestion_text : string :=
  "{" ++ quoted "id" ++ ":9,"
      ++ quoted "correctOption" ++ ":0,"
      ++ quoted "options" ++ ":[" ++ quoted "a" ++ "," ++ quoted "b" ++ ","
      ++ quoted "c" ++ "," ++ quoted "d" ++ "],"
      ++ quoted "text" ++ ":" ++ quoted "Q" ++ "}".

Definition taggedQuestion : JsVal :=
  JObj [("id", JNum 9%Q);
        ("correctOption", JNum 0%Q);
        ("options", JArr [JStr "a"; JStr "b"; JStr "c"; JStr "d"]);
        ("text", JStr "Q")].

Definition oneTagged_text : string := "[" ++ taggedQuestion_text ++ "]".

(** [JSON.parse] on that document and on those of [Fixtures.parse]. *)
Definition parse (s : string) : option JsVal :=
  if (s =? oneTagged_text)%string then Some (JArr [taggedQuestion])
  else Fixtures.parse s.

Definition teacherRequest : Request :=
  Fixtures.post (Some "Bearer tok-teacher") (Fixtures.algebra 1).

Definition studentRequest : Request :=
  Fixtures.post (Some "Bearer tok-student") (Fixtures.algebra 1).

(** A client whose session is fine and whose edge-function call fails with
    an error that mentions the status 401. *)
Definition expiredClient : ClientWorld :=
  mkClientWorld true true
    (fun _ _ => InvokeError "Edge Function returned status 401").

Definition form : QuizParams :=
  mkQuizParams "Mathematics" "Algebra" 5 Medium 30 None None.

Definition blankForm : QuizParams :=
  mkQuizParams "   " "Algebra" 5 Medium 30 None None.

End Scenarios.

(** ** Further vocabulary: pipeline stages and store invariants *)

(** The pipeline stage an outbound call belongs to. *)
Definition stage (e : Event) : nat :=
  match e with
  | EvGetUser _ => 1
  | EvTeacherLookup _ => 2
  | EvGenerate _ _ => 3
  | EvInsertQuiz _ _ => 4
  | EvInsertQuestions _ _ => 5
  | EvDeleteQuiz _ => 6
  end.

Fixpoint increasing (l : list nat) : bool :=
  match l with
  | a :: ((b :: _) as rest) => (a <? b) && increasing rest
  | _ => true
  end.

Definition isGenerate (e : Event) : bool :=
  match e with EvGenerate _ _ => true | _ => false end.

Definition isTeacherLookup (e : Event) : bool :=
  match e with EvTeacherLookup _ => true | _ => false end.

(** Every identifier in use is below the next one the store hands out. *)
Definition fresh (st : Store) : Prop :=
  forall row, In row (quizzes st) -> id row < next_id st.

(** A persisted question row as the validator guarantees it. *)
Definition wellFormedRow (row : QuestionRow) : bool :=
  Js.truthy (text row)
  && Js.isArray (options row) && (Js.arrayLength (options row) =? 4)
  && match correct_option row with
     | JNum c => Qle_bool 0%Q c && Qle_bool c 3%Q
     | _ => false
     end.

Definition noBacktick (c : ascii) : bool := negb (Ascii.eqb c backtick).

(** * Verification *)

(** ** Properties of the validator *)

Lemma validateQuestion_accepts (q : JsVal) (index : nat) :
  accepts q = true -> validateQuestion q index = inr (normalize q).
Proof.
  destruct q as [| | b | c | s | items | fields]; simpl; try discriminate.
  unfold validateQuestion; simpl.
  intros H.
  apply andb_prop in H as [H Hc].
  apply andb_prop in H as [H Hlen].
  apply andb_prop in H as [Ht Harr].
  rewrite Ht, Harr, Hlen; simpl.
  destruct (Js.lookup "correctOption" fields) as [| | b | c | s | items | fs];
    try discriminate.
  apply andb_prop in Hc as [H0 H3].
  simpl. unfold Js.lt. rewrite H0, H3. reflexivity.
Qed.

Lemma validateQuestion_rejects (q : JsVal) (index : nat) :
  accepts q = false ->
  exists e, validateQuestion q index = inl e /\
            (e = invalidStructure index \/ e = invalidCorrectOption index \/
             ((q = JNull \/ q = JUndefined) /\ exists m, e = TypeError m)).
Proof.
  destruct q as [| | b | c | s | items | fields]; simpl; intros H;
    try (eexists; split; [reflexivity | eauto 6]).
  unfold validateQuestion; simpl.
  destruct (Js.truthy (Js.lookup "text" fields)); simpl in *;
    [| eexists; split; [reflexivity | auto]].
  destruct (Js.isArray (Js.lookup "options" fields)); simpl in *;
    [| eexists; split; [reflexivity | auto]].
  destruct (Js.arrayLength (Js.lookup "options" fields) =? 4); simpl in *;
    [| eexists; split; [reflexivity | auto]].
  destruct (Js.lookup "correctOption" fields) as [| | b | c | s | items | fs];
    simpl in *; try (eexists; split; [reflexivity | auto]).
  unfold Js.lt.
  destruct (Qle_bool 0 c), (Qle_bool c 3); simpl in *; try discriminate;
    eexists; split; try reflexivity; auto.
Qed.

Lemma mapWithIndex_length {A} (f : JsVal -> nat -> JsError + A) :
  forall l index out,
    mapWithIndex f index l = inr out -> List.length out = List.length l.
Proof.
  induction l as [| q rest IH]; simpl; intros index out H.
  - inversion H; reflexivity.
  - destruct (f q index); try discriminate.
    destruct (mapWithIndex f (S index) rest) eqn:E; try discriminate.
    inversion H; subst; simpl. f_equal. eapply IH; eauto.
Qed.

Lemma validateQuestions_inr_aux :
  forall l index out,
    mapWithIndex validateQuestion index l = inr out <->
    (List.forallb accepts l = true /\ out = List.map normalize l).
Proof.
  induction l as [| q rest IH]; simpl; intros index out.
  - split; [intros H; inversion H; auto | intros [_ ->]; reflexivity].
  - destruct (accepts q) eqn:Hq; simpl.
    + rewrite (validateQuestion_accepts q index Hq).
      destruct (mapWithIndex validateQuestion (S index) rest) as [e | out'] eqn:E.
      * split; [discriminate |].
        intros [Hall ->].
        assert (H : mapWithIndex validateQuestion (S index) rest
                    = inr (List.map normalize rest)) by (apply IH; auto).
        congruence.
      * apply IH in E as [Hall ->].
        split; [intros H; inversion H; auto | intros [_ ->]; reflexivity].
    + destruct (validateQuestion_rejects q index Hq) as [e [-> _]].
      split; [discriminate | intros [H _]; discriminate].
Qed.

Lemma validateQuestions_inl_aux :
  forall l base e,
    mapWithIndex validateQuestion base l = inl e ->
    exists index q,
      nth_error l index = Some q /\ accepts q = false /\
      List.forallb accepts (firstn index l) = true /\
      validateQuestion q (base + index) = inl e.
Proof.
  induction l as [| q rest IH]; simpl; intros base e H; try discriminate.
  destruct (accepts q) eqn:Hq.
  - rewrite (validateQuestion_accepts q base Hq) in H.
    destruct (mapWithIndex validateQuestion (S base) rest) eqn:E; try discriminate.
    inversion H; subst.
    destruct (IH _ _ E) as [index [q' [Hn [Ha [Hf Hv]]]]].
    exists (S index), q'; simpl. rewrite Hq, Hf.
    replace (base + S index) with (S base + index) by lia. auto.
  - exists 0, q; simpl. rewrite Nat.add_0_r.
    destruct (validateQuestion q base) eqn:E; [inversion H; subst; auto |].
    destruct (validateQuestion_rejects q base Hq) as [e' [He' _]]. congruence.
Qed.

(** C7 (counterexample).  The validator accepts a batch whose only element
    has a number for [text], numbers for [options] and the answer index
    1.5: none of the three conditions of the specification holds for it. *)
Lemma validator_accepts_loose_question :
  validateQuestions [Fixtures.looseQuestion] = inr [Fixtures.looseQuestion]
  /\ spec_validQuestion Fixtures.looseQuestion = false
  /\ validateQuestions [Fixtures.goodQuestion; Fixtures.goodQuestion;
                        JObj [("text", JStr "Q");
                              ("options", JArr [JStr "a"; JStr "b"; JStr "c"; JStr "d"]);
                              ("correctOption", JNum 4%Q)]]
     = inl (Error "Invalid correct option at question 3").
Proof. repeat split; vm_compute; reflexivity. Qed.

Lemma accepts_shape_range (q : JsVal) :
  accepts q = shapeOk q && inRange q.
Proof.
  destruct q as [| | b | c | s | items | fields]; try reflexivity.
  unfold accepts, shapeOk, inRange.
  destruct (Js.lookup "correctOption" fields); simpl;
    rewrite ?andb_false_r, ?andb_true_r; reflexivity.
Qed.

(** The error of a refused element, by the kind of its violation. *)
Lemma validateQuestion_error (q : JsVal) (index : nat) (e : JsError) :
  validateQuestion q index = inl e ->
  (q = JNull ->
   e = TypeError "Cannot read properties of null (reading 'text')")
  /\ (q = JUndefined ->
      e = TypeError "Cannot read properties of undefined (reading 'text')")
  /\ (q <> JNull -> q <> JUndefined -> shapeOk q = false ->
      e = invalidStructure index)
  /\ (shapeOk q = true ->
      inRange q = false /\ e = invalidCorrectOption index).
Proof.
  destruct q as [| | b | c | s | items | fields];
    try (cbn; intros H; inversion H; subst;
         repeat split; intros; try discriminate; try congruence; reflexivity).
  unfold validateQuestion, shapeOk, inRange; cbn [Js.get].
  destruct (Js.truthy (Js.lookup "text" fields)); cbn [negb andb];
    [| intros H; inversion H; repeat split; intros; try discriminate; reflexivity].
  destruct (Js.isArray (Js.lookup "options" fields)); cbn [negb andb];
    [| intros H; inversion H; repeat split; intros; try discriminate; reflexivity].
  destruct (Js.arrayLength (Js.lookup "options" fields) =? 4); cbn [negb andb];
    [| intros H; inversion H; repeat split; intros; try discriminate; reflexivity].
  destruct (Js.lookup "correctOption" fields) as [| | b | c | s | items | fs];
    cbn [Js.isNumber negb outOfRange];
    try (intros H; inversion H; repeat split; intros; try discriminate; reflexivity).
  unfold Js.lt.
  destruct (Qle_bool 0 c), (Qle_bool c 3); cbn [negb orb andb]; intros H;
    inversion H; repeat split; intros; try discriminate; reflexivity.
Qed.

(** C7 (amended).  The validator returns a batch exactly when every element
    is an object with a truthy [text], an [options] array of length 4 and a
    numeric [correctOption] between 0 and 3, and then returns every element
    reduced to those three fields.  Otherwise the whole batch is refused
    with the error of the first offending element.  When that element is
    not [null], a violation of the shape test gives the structure error
    citing its 0-based index, and an element that passes the shape test
    fails the range test and gives the range error citing its 1-based
    position.  A [null] element is refused with the engine's TypeError for
    reading [text] of [null]. *)
Theorem validateQuestions_characterised (questions : list JsVal) :
  (forall out,
      validateQuestions questions = inr out <->
      (List.forallb accepts questions = true
       /\ out = List.map normalize questions))
  /\ (forall e,
      validateQuestions questions = inl e ->
      exists index q,
        nth_error questions index = Some q
        /\ accepts q = false
        /\ List.forallb accepts (firstn index questions) = true
        /\ (q = JNull ->
            e = TypeError "Cannot read properties of null (reading 'text')")
        /\ (q = JUndefined ->
            e = TypeError "Cannot read properties of undefined (reading 'text')")
        /\ (q <> JNull -> q <> JUndefined -> shapeOk q = false ->
            e = Error ("Invalid question structure at index " ++ of_nat index))
        /\ (shapeOk q = true ->
            inRange q = false
            /\ e = Error ("Invalid correct option at question "
                          ++ of_nat (index + 1))))
  /\ (forall q, accepts q = shapeOk q && inRange q).
Proof.
  split; [| split].
  - intros out. apply validateQuestions_inr_aux.
  - intros e H.
    destruct (validateQuestions_inl_aux _ _ _ H) as [index [q [Hn [Ha [Hf Hv]]]]].
    exists index, q.
    destruct (validateQuestion_error q (0 + index) e Hv) as [H1 [H2 [H3 H4]]].
    repeat split; auto; apply H4; assumption.
  - apply accepts_shape_range.
Qed.

(** Every question the specification calls valid is accepted by the code. *)
Lemma spec_validQuestion_accepts (q : JsVal) :
  spec_validQuestion q = true -> accepts q = true.
Proof.
  destruct q as [| | b | c | s | items | fields]; simpl; try discriminate.
  destruct (Js.lookup "text" fields) as [| | b | c | t | items | fs];
    try discriminate.
  destruct (Js.lookup "options" fields) as [| | b | c | s | opts | fs];
    try discriminate.
  destruct (Js.lookup "correctOption" fields) as [| | b | c | s | items | fs];
    try discriminate.
  simpl. intros H.
  repeat (apply andb_prop in H as [H ?]).
  repeat (apply andb_true_intro; split); auto.
Qed.

(** ** Code-fence stripping *)

Lemma prefix_cons (a b : ascii) (p s : string) :
  prefix (String a p) (String b s) = (Ascii.eqb b a && prefix p s)%bool.
Proof.
  cbn [prefix]. destruct (ascii_dec a b) as [-> | n].
  - rewrite Ascii.eqb_refl. reflexivity.
  - destruct (Ascii.eqb_spec b a); [congruence | reflexivity].
Qed.

Lemma prefix_fence_leading (s : string) :
  prefix fence s = true <-> 3 <= leadingBackticks s.
Proof.
  unfold fence.
  destruct s as [| c1 [| c2 [| c3 t]]];
    rewrite ?prefix_cons; cbn [prefix leadingBackticks];
    repeat match goal with
           | |- context [Ascii.eqb ?a backtick] => destruct (Ascii.eqb a backtick)
           end;
    cbn [andb]; split; intros; try lia; try discriminate; auto;
    destruct t; reflexivity.
Qed.

Lemma removeAll_fence_leading :
  forall s, leadingBackticks s <= 2 ->
            leadingBackticks (removeAllAux fence 0 false s) <= leadingBackticks s.
Proof.
  induction s as [| c t IH]; intros H; [simpl; lia |].
  cbn [removeAllAux andb].
  destruct (prefix fence (String c t)) eqn:E.
  - apply prefix_fence_leading in E. lia.
  - simpl in *. destruct (Ascii.eqb c backtick); [| lia].
    specialize (IH ltac:(lia)). lia.
Qed.

Lemma removeAllAux_fence_free :
  forall s skip lf, includes fence (removeAllAux fence skip lf s) = false.
Proof.
  induction s as [| c t IH]; intros skip lf; [reflexivity |].
  cbn [removeAllAux].
  destruct skip as [| k]; [| apply IH].
  destruct (lf && Ascii.eqb c (ascii_of_nat 10))%bool; [apply IH |].
  destruct (prefix fence (String c t)) eqn:E; [apply IH |].
  cbn [includes]. rewrite IH, orb_false_r.
  destruct (prefix fence (String c (removeAllAux fence 0 false t))) eqn:F; auto.
  apply prefix_fence_leading in F.
  assert (G : ~ 3 <= leadingBackticks (String c t)).
  { intros G. apply prefix_fence_leading in G. congruence. }
  simpl in F, G. destruct (Ascii.eqb c backtick); [| lia].
  assert (leadingBackticks t <= 2) by lia.
  pose proof (removeAll_fence_leading t ltac:(assumption)). lia.
Qed.

Lemma includes_trimStart (pat : string) :
  forall s, includes pat s = false -> includes pat (trimStart s) = false.
Proof.
  induction s as [| c t IH]; intros H; [exact H |].
  cbn [trimStart]. destruct (isWhiteSpace c); [| exact H].
  cbn [includes] in H. apply orb_false_elim in H as [_ H]. auto.
Qed.

Lemma trimEnd_is_prefix :
  forall s, exists w, s = trimEnd s ++ w.
Proof.
  induction s as [| c t [w IH]]; [exists ""; reflexivity |].
  cbn [trimEnd].
  destruct (isWhiteSpace c && (trimEnd t =? "")%string)%bool.
  - exists (String c t). reflexivity.
  - exists w. simpl. congruence.
Qed.

Lemma prefix_app_right :
  forall p a w, prefix p a = true -> prefix p (a ++ w) = true.
Proof.
  induction p as [| c p IH]; intros a w H; [destruct (a ++ w); reflexivity |].
  destruct a as [| c' a]; simpl in *; [discriminate |].
  destruct (ascii_dec c c'); [auto | discriminate].
Qed.

Lemma includes_app_right (pat : string) :
  forall a w, includes pat a = true -> includes pat (a ++ w) = true.
Proof.
  induction a as [| c a IH]; intros w H.
  - cbn [includes] in H. rewrite orb_false_r in H.
    apply (prefix_app_right _ _ w) in H.
    destruct ("" ++ w) eqn:E; cbn [includes]; rewrite H; reflexivity.
  - cbn [includes] in H. apply orb_true_iff in H as [H | H].
    + apply (prefix_app_right _ _ w) in H.
      change (String c a ++ w) with (String c (a ++ w)) in *.
      cbn [includes]. rewrite H. reflexivity.
    + change (String c a ++ w) with (String c (a ++ w)).
      cbn [includes]. rewrite (IH w H). apply orb_true_r.
Qed.

Lemma includes_trimEnd (pat : string) (s : string) :
  includes pat s = false -> includes pat (trimEnd s) = false.
Proof.
  intros H. destruct (includes pat (trimEnd s)) eqn:E; auto.
  destruct (trimEnd_is_prefix s) as [w Hw].
  apply (includes_app_right _ _ w) in E. rewrite <- Hw in E. congruence.
Qed.

(** The Gemini client hands [JSON.parse] a text without any code-fence
    marker, whatever the model returned. *)
Lemma clean_v1_fence_free (raw : string) :
  includes fence (clean_v1 raw) = false.
Proof.
  unfold clean_v1, trim, removeAll.
  apply includes_trimEnd, includes_trimStart, removeAllAux_fence_free.
Qed.

(** C8 (the OpenAI variant at a fenced completion).  The text handed to
    [JSON.parse] still starts and ends with the code-fence marker, while the
    Gemini variant hands over the bare array. *)
Theorem clean_v2_keeps_code_fence :
  completion_v2 (Completion Fixtures.fenced_text) = inr Fixtures.fenced_text
  /\ prefix fence Fixtures.fenced_text = true
  /\ completion_v1 (Completion Fixtures.fenced_text) = inr Fixtures.oneGood_text
  /\ includes fence Fixtures.oneGood_text = false.
Proof. repeat split; vm_compute; reflexivity. Qed.

(** ** Room codes *)

Lemma digitChar_lower (d : N) : isLowerAlnum (digitChar d) = true.
Proof.
  unfold digitChar.
  remember (N.to_nat d) as n eqn:E. clear E d.
  do 36 (destruct n as [| n]; [reflexivity |]).
  reflexivity.
Qed.

Lemma upperChar_alnum (c : ascii) :
  isLowerAlnum c = true -> isUpperAlnum (upperChar c) = true.
Proof.
  destruct c as [[] [] [] [] [] [] [] []]; vm_compute; auto.
Qed.

Lemma every_substring (p : ascii -> bool) :
  forall s n m, every p s = true -> every p (String.substring n m s) = true.
Proof.
  induction s as [| c t IH]; intros n m H.
  - destruct n, m; reflexivity.
  - simpl in H. apply andb_prop in H as [Hc Ht].
    destruct n as [| n]; destruct m as [| m]; simpl; auto.
    rewrite Hc. simpl. apply IH; auto.
Qed.

Lemma substring_length_le :
  forall s n m, String.length (String.substring n m s) <= m.
Proof.
  induction s as [| c t IH]; intros n m.
  - destruct n, m; simpl; lia.
  - destruct n as [| n]; destruct m as [| m]; simpl; try lia.
    + specialize (IH 0 m). lia.
    + apply IH.
    + apply IH.
Qed.

Lemma substring_length_exact :
  forall s n m, n + m <= String.length s ->
                String.length (String.substring n m s) = m.
Proof.
  induction s as [| c t IH]; intros n m H; simpl in H.
  - destruct n, m; simpl; lia.
  - destruct n as [| n]; destruct m as [| m]; simpl; try lia.
    + rewrite IH; simpl; lia.
    + apply IH. lia.
    + apply IH. lia.
Qed.

Lemma mapChars_length (f : ascii -> ascii) :
  forall s, String.length (mapChars f s) = String.length s.
Proof. induction s; simpl; auto. Qed.

Lemma every_digits (digits : list N) :
  every isLowerAlnum (string_of_list_ascii (List.map digitChar digits)) = true.
Proof.
  induction digits as [| d rest IH]; simpl; auto.
  rewrite digitChar_lower. auto.
Qed.

Lemma every_upper :
  forall s, every isLowerAlnum s = true ->
            every isUpperAlnum (toUpperCase s) = true.
Proof.
  induction s as [| c t IH]; simpl; auto.
  intros H. apply andb_prop in H as [Hc Ht].
  rewrite (upperChar_alnum c Hc). apply IH; auto.
Qed.

Lemma digits_string_length (digits : list N) :
  String.length (string_of_list_ascii (List.map digitChar digits))
  = List.length digits.
Proof. induction digits; simpl; auto. Qed.

(** What holds of every room code: at most six characters, each an
    uppercase letter or a digit; exactly six as soon as the random value has
    six base-36 digits. *)
Lemma roomCode_shape (random : list N) :
  String.length (roomCodeOf random) <= 6
  /\ every isUpperAlnum (roomCodeOf random) = true
  /\ (6 <= List.length random -> String.length (roomCodeOf random) = 6).
Proof.
  unfold roomCodeOf, toUpperCase, substring.
  rewrite mapChars_length.
  split; [apply (substring_length_le _ 2 6) |].
  split.
  - apply every_upper.
    destruct random as [| d rest]; [reflexivity |].
    unfold toString36.
    change (8 - 2) with 6.
    change (String.substring 2 6 ("0." ++ ?s)) with (String.substring 0 6 s).
    apply every_substring. apply (every_digits (d :: rest)).
  - intros H. destruct random as [| d rest]; [simpl in H; lia |].
    unfold toString36.
    apply substring_length_exact.
    change ("0." ++ ?s) with (String "0" (String "." s)).
    simpl String.length.
    rewrite (digits_string_length rest). simpl in H. lia.
Qed.

(** C9 (the generator at the random value 0.5).  [(0.5).toString(36)] is
    "0.i", so the room code is the single character "I". *)
Theorem roomCode_of_one_half :
  Fixtures.half = [18%N]
  /\ toString36 Fixtures.half = "0.i"
  /\ roomCodeOf Fixtures.half = "I"
  /\ String.length (roomCodeOf Fixtures.half) = 1
  /\ roomCodeOf [] = "".
Proof. repeat split; vm_compute; reflexivity. Qed.

(** ** Case analysis of one handler run *)

Ltac run_unfold :=
  cbv beta iota zeta delta
    [run serve serve_v1 serve_v2 catch bind ret throw lift log failure
     call_getUser call_teachers call_generate persist insert_quiz
     insert_questions delete_quiz internalError store trace
     vendorOf promptOf cleanOf apiKeyOf] in *.

(** Split on the next test the handler makes: the innermost scrutinee of
    the run recorded in [H]. *)
Ltac run_case H :=
  match type of H with
  | context [match ?x with _ => _ end] =>
      lazymatch x with
      | context [match _ with _ => _ end] => fail
      | _ => destruct x eqn:?; run_unfold; try discriminate H
      end
  end.

Ltac run_cases H := run_unfold; repeat run_case H.

Ltac use_facts :=
  repeat match goal with
         | E : ?x = _ |- context [?x] => rewrite E
         end.

Ltac split_events :=
  repeat match goal with
         | H : In _ _ |- _ => simpl in H
         | H : _ \/ _ |- _ => destruct H
         | H : False |- _ => destruct H
         | H : @eq Event _ _ |- _ => inversion H; subst; clear H
         end.

Lemma completion_v1_inr (reply : GenerationReply) (text : string) :
  completion_v1 reply = inr text ->
  exists raw, reply = Completion raw /\ text = clean_v1 raw.
Proof.
  destruct reply; simpl; intros H; try discriminate.
  inversion H; eauto.
Qed.

Lemma completion_v2_inr (reply : GenerationReply) (text : string) :
  completion_v2 reply = inr text ->
  exists raw, reply = Completion raw /\ text = clean_v2 raw.
Proof.
  destruct reply; simpl; intros H; try discriminate.
  inversion H; eauto.
Qed.

Lemma parseQuestions_inr (parse : string -> option JsVal)
  (text msg : string) (batch : list JsVal) :
  parseQuestions parse text msg = inr batch ->
  parse text = Some (JArr batch) /\ batch <> [].
Proof.
  unfold parseQuestions.
  destruct (parse text) as [[| | b | c | s | [| q rest] | fs] |];
    intros H; try discriminate.
  inversion H; subst. split; [reflexivity | discriminate].
Qed.

Lemma validateQuestions_length (batch out : list JsVal) :
  validateQuestions batch = inr out -> List.length out = List.length batch.
Proof. apply mapWithIndex_length. Qed.

(** The handlers catch every throw: a run always ends in a response. *)
Lemma serve_returns (parse : string -> option JsVal) (v : Variant)
  (w : World) (req : Request) (s : HandlerState) :
  exists r s', serve parse v w req s = (inr r, s').
Proof.
  destruct v; unfold serve, serve_v1, serve_v2, catch;
    destruct (method req =? "OPTIONS")%string;
    try (unfold ret; eauto; fail);
    match goal with
    | |- context [match ?m s with _ => _ end] =>
        destruct (m s) as [[e | r] s']
    end; unfold internalError, ret; eauto.
Qed.

(** ** Question counts *)

(** C1 (counterexample).  Three questions are requested with valid
    parameters, the model returns one well-formed question, and both
    variants answer with success and a single question. *)
Lemma success_with_fewer_questions_than_requested :
  let params := Fixtures.algebra 3 in
  let w := Fixtures.world Fixtures.oneGood_text Fixtures.sixDigits true in
  let req := Fixtures.post (Some "Bearer tok-teacher") params in
  let answer :=
    mkResponse 200
      (SuccessBody
         (mkQuizSummary 1 "AI Generated: Mathematics - Algebra"
                        "AI-generated quiz on Algebra (Easy level)" "9UD4RI" 1)
         [Fixtures.goodQuestion]) in
  QuizParams_valid params /\ numQuestions params = 3%Z
  /\ fst (fst (run Fixtures.parse V1 w req Fixtures.emptyStore)) = answer
  /\ fst (fst (run Fixtures.parse V2 w req Fixtures.emptyStore)) = answer.
Proof.
  repeat split; try (vm_compute; reflexivity); try discriminate.
Qed.

(** C1 (amended).  Whenever either variant returns a success response, the
    length of its [questions] array and [quiz.questionsCount] both equal the
    number of elements of the non-empty array parsed from the model's
    completion; [numQuestions] takes no part in it. *)
Theorem success_counts_parsed_batch
  (parse : string -> option JsVal) (v : Variant) (w : World) (req : Request)
  (st st' : Store) (r : Response) (tr : list Event) :
  run parse v w req st = (r, st', tr) ->
  isSuccess r = true ->
  exists quiz questions params raw batch,
    body r = SuccessBody quiz questions
    /\ questionsCount quiz = List.length questions
    /\ json req = inr params
    /\ generate w (vendorOf v) (promptOf v params) = Completion raw
    /\ parse (cleanOf v raw) = Some (JArr batch)
    /\ List.length questions = List.length batch
    /\ batch <> [].
Proof.
  intros Hrun Hok.
  destruct v; run_cases Hrun;
    inversion Hrun; subst; clear Hrun; try discriminate Hok.
  - match goal with
    | H : completion_v1 _ = inr _ |- _ =>
        apply completion_v1_inr in H as [raw [Hraw ->]]
    end.
    match goal with
    | H : parseQuestions _ _ _ = inr _ |- _ =>
        apply parseQuestions_inr in H as [Hparse Hne]
    end.
    match goal with
    | H : validateQuestions ?batch = inr _ |- _ =>
        apply validateQuestions_length in H;
        eexists _, _, _, raw, batch
    end.
    repeat split; eauto.
  - match goal with
    | H : completion_v2 _ = inr _ |- _ =>
        apply completion_v2_inr in H as [raw [Hraw ->]]
    end.
    match goal with
    | H : parseQuestions _ _ _ = inr ?batch |- _ =>
        apply parseQuestions_inr in H as [Hparse Hne];
        eexists _, _, _, raw, batch
    end.
    repeat split; eauto.
Qed.

Lemma success_counts_parsed_batch_witness :
  let w := Fixtures.world Fixtures.oneGood_text Fixtures.sixDigits true in
  let req := Fixtures.post (Some "Bearer tok-teacher") (Fixtures.algebra 3) in
  let res := run Fixtures.parse V1 w req Fixtures.emptyStore in
  isSuccess (fst (fst res)) = true
  /\ exists quiz questions params raw batch,
      body (fst (fst res)) = SuccessBody quiz questions
      /\ questionsCount quiz = List.length questions
      /\ json req = inr params
      /\ generate w Gemini (prompt_v1 params) = Completion raw
      /\ Fixtures.parse (clean_v1 raw) = Some (JArr batch)
      /\ List.length questions = List.length batch
      /\ batch <> [].
Proof.
  intros w req res. split; [vm_compute; reflexivity |].
  apply (success_counts_parsed_batch Fixtures.parse V1 w req Fixtures.emptyStore
           (snd (fst res)) (fst (fst res)) (snd res));
    vm_compute; reflexivity.
Defined.

(** ** Validation before persistence *)

(** In the Gemini variant no store call is made before the whole parsed
    batch has passed [validateQuestions]. *)
Lemma serve_v1_validates_before_writing
  (parse : string -> option JsVal) (w : World) (req : Request)
  (st st' : Store) (r : Response) (tr : list Event) :
  run parse V1 w req st = (r, st', tr) ->
  existsb isStoreWrite tr = true \/ st' <> st ->
  exists params raw batch,
    json req = inr params
    /\ generate w Gemini (prompt_v1 params) = Completion raw
    /\ parse (clean_v1 raw) = Some (JArr batch)
    /\ List.forallb accepts batch = true.
Proof.
  intros Hrun Hw.
  run_cases Hrun; inversion Hrun; subst; clear Hrun;
    try (exfalso; destruct Hw as [Hw | Hw];
         [simpl in Hw; discriminate Hw | apply Hw; reflexivity]).
  all: match goal with
       | H : completion_v1 _ = inr _ |- _ =>
           apply completion_v1_inr in H as [raw [Hraw ->]]
       end;
       match goal with
       | H : parseQuestions _ _ _ = inr _ |- _ =>
           apply parseQuestions_inr in H as [Hparse Hne]
       end;
       match goal with
       | H : validateQuestions ?batch = inr _, Hj : json _ = inr ?params |- _ =>
           unfold validateQuestions in H;
           apply validateQuestions_inr_aux in H as [Hall _];
           exists params, raw, batch; auto
       end.
Qed.

(** C2 (the OpenAI variant at a malformed batch).  The model returns one
    question with three options and the answer index 5.  The batch fails
    the structural validation, the Gemini variant writes nothing, and the
    OpenAI variant reports success and leaves the quiz row and the
    malformed question row in the store.  When the model returns [[null]],
    the OpenAI variant inserts the quiz row, fails while building the
    question rows and leaves the quiz row behind. *)
Theorem serve_v2_persists_malformed_batch :
  let w := Fixtures.world Fixtures.oneBad_text Fixtures.sixDigits true in
  let req := Fixtures.post (Some "Bearer tok-teacher") (Fixtures.algebra 1) in
  let quizRow :=
    mkQuizRow 1 (mkNewQuiz "AI Generated: Mathematics - Algebra"
                           "AI-generated quiz on Algebra (Easy level)"
                           30 "9UD4RI" "teacher-1" "classnode") in
  let questionRow :=
    mkQuestionRow 1 (JStr "Q") (JArr [JStr "a"; JStr "b"; JStr "c"])
                  (JNum 5%Q) 1 in
  validateQuestions [Fixtures.badQuestion] = inl (invalidStructure 0)
  /\ run Fixtures.parse V1 w req Fixtures.emptyStore
     = (failure 500 "Invalid question structure at index 0",
        Fixtures.emptyStore,
        [EvGetUser "tok-teacher"; EvTeacherLookup "teacher-1";
         EvGenerate Gemini (prompt_v1 (Fixtures.algebra 1))])
  /\ isSuccess (fst (fst (run Fixtures.parse V2 w req Fixtures.emptyStore))) = true
  /\ snd (fst (run Fixtures.parse V2 w req Fixtures.emptyStore))
     = mkStore [quizRow] [questionRow] 2
  /\ fst (run Fixtures.parse V2
             (Fixtures.world "[null]" Fixtures.sixDigits true) req
             Fixtures.emptyStore)
     = (failure 500 "Cannot read properties of null (reading 'text')",
        mkStore [quizRow] [] 2).
Proof. repeat split; vm_compute; reflexivity. Qed.

(** ** Compensating delete *)

Lemma filter_excludes_id (qid : nat) (rows : list QuizRow) (row : QuizRow) :
  In row (filter (fun r => negb (id r =? qid)) rows) -> id row <> qid.
Proof.
  intros H. apply filter_In in H as [_ H].
  apply negb_true_iff in H. apply Nat.eqb_neq in H. exact H.
Qed.

Lemma filter_fresh (n : nat) (c : NewQuiz) :
  forall rows,
    (forall row, In row rows -> id row < n) ->
    filter (fun r => negb (id r =? n)) (rows ++ [mkQuizRow n c])%list = rows.
Proof.
  induction rows as [| r rest IH]; intros H; simpl.
  - rewrite Nat.eqb_refl. reflexivity.
  - assert (Hr : id r < n) by (apply H; left; reflexivity).
    destruct (Nat.eqb_spec (id r) n) as [E | E]; [lia |].
    simpl. f_equal. apply IH. intros row Hin. apply H. right. exact Hin.
Qed.

(** C3 (counterexample).  The store refuses the question batch and then
    refuses the delete, whose result the handlers discard: both variants
    issue the delete as their last call, answer 500, and leave the quiz row
    of the request in the store without any question. *)
Lemma refused_delete_leaves_quiz_row :
  let run_ v :=
    run Fixtures.parse v Scenarios.stuckWorld Scenarios.teacherRequest
        Fixtures.emptyStore in
  let quizRow :=
    mkQuizRow 1 (mkNewQuiz "AI Generated: Mathematics - Algebra"
                           "AI-generated quiz on Algebra (Easy level)"
                           30 "9UD4RI" "teacher-1" "classnode") in
  fst (fst (run_ V1)) = failure 500 "Failed to create quiz questions"
  /\ snd (fst (run_ V1)) = mkStore [quizRow] [] 2
  /\ last (snd (run_ V1)) (EvGetUser "") = EvDeleteQuiz 1
  /\ fst (fst (run_ V2)) = failure 500 "Failed to save questions"
  /\ snd (fst (run_ V2)) = mkStore [quizRow] [] 2
  /\ last (snd (run_ V2)) (EvGetUser "") = EvDeleteQuiz 1.
Proof. repeat split; vm_compute; reflexivity. Qed.

(** C3 (amended).  In either variant, when the quiz insert has created row
    [qid] and the insert of the question batch is refused, the last three
    outbound calls of the run are that insert, the refused batch and the
    delete of row [qid]; the response is a failure with status 500 and no
    question row has been added.  The handler discards the result of the
    delete.  When the store carries out that delete, no quiz row with
    identifier [qid] is left, and on a store with fresh identifiers the
    quiz table is as it was before the request; when the store refuses it,
    the quiz row of the request stays in the table. *)
Theorem compensating_delete
  (parse : string -> option JsVal) (v : Variant) (w : World) (req : Request)
  (st st' : Store) (r : Response) (tr : list Event)
  (nq : NewQuiz) (qid : nat) (rows : list QuestionRow) :
  run parse v w req st = (r, st', tr) ->
  In (EvInsertQuiz nq (Some qid)) tr ->
  In (EvInsertQuestions rows false) tr ->
  (exists before,
      tr = (before ++ [EvInsertQuiz nq (Some qid);
                       EvInsertQuestions rows false;
                       EvDeleteQuiz qid])%list)
  /\ status r = 500%Z
  /\ isFailure r = true
  /\ quiz_questions st' = quiz_questions st
  /\ (quizzes_delete_ok w qid = true ->
      (forall row, In row (quizzes st') -> id row <> qid)
      /\ (fresh st -> quizzes st' = quizzes st))
  /\ (quizzes_delete_ok w qid = false ->
      quizzes st' = (quizzes st ++ [mkQuizRow qid nq])%list).
Proof.
  intros Hrun Hquiz Hrows.
  destruct v; run_cases Hrun; inversion Hrun; subst; clear Hrun;
    split_events.
  all: repeat split;
    try (eexists [_; _; _]; reflexivity);
    try (intros; simpl in *; congruence);
    try (intros row Hin; simpl in Hin; eapply filter_excludes_id; exact Hin);
    try (intros Hfresh; cbn [quizzes]; apply filter_fresh; exact Hfresh);
    try reflexivity.
Qed.

Lemma compensating_delete_witness :
  let w := Fixtures.world Fixtures.oneGood_text Fixtures.sixDigits false in
  let res := run Fixtures.parse V2 w Scenarios.teacherRequest Scenarios.busyStore in
  let nq := mkNewQuiz "AI Generated: Mathematics - Algebra"
                      "AI-generated quiz on Algebra (Easy level)"
                      30 "9UD4RI" "teacher-1" "classnode" in
  let rows := [mkQuestionRow 2 (JStr "2+2?")
                 (JArr [JStr "1"; JStr "2"; JStr "3"; JStr "4"]) (JNum 3%Q) 1] in
  In (EvInsertQuiz nq (Some 2)) (snd res)
  /\ In (EvInsertQuestions rows false) (snd res)
  /\ quizzes_delete_ok w 2 = true
  /\ fresh Scenarios.busyStore
  /\ status (fst (fst res)) = 500%Z
  /\ quiz_questions (snd (fst res)) = quiz_questions Scenarios.busyStore
  /\ (forall row, In row (quizzes (snd (fst res))) -> id row <> 2)
  /\ quizzes (snd (fst res)) = quizzes Scenarios.busyStore.
Proof.
  intros w res nq rows.
  assert (Hq : In (EvInsertQuiz nq (Some 2)) (snd res))
    by (vm_compute; auto 10).
  assert (Hr : In (EvInsertQuestions rows false) (snd res))
    by (vm_compute; auto 10).
  assert (Hd : quizzes_delete_ok w 2 = true) by reflexivity.
  assert (Hf : fresh Scenarios.busyStore)
    by (intros row [<- | []]; simpl; lia).
  destruct (compensating_delete Fixtures.parse V2 w Scenarios.teacherRequest
              Scenarios.busyStore (snd (fst res)) (fst (fst res)) (snd res)
              nq 2 rows eq_refl Hq Hr) as [_ [Hs [_ [Hqq [Hdel _]]]]].
  destruct (Hdel Hd) as [Hgone Hsame].
  repeat split; auto.
Defined.

(** ** Failure statuses *)

(** In the Gemini variant a failure has status 401 exactly when the caller
    is unauthenticated, 403 exactly when the caller is authenticated and no
    teacher, and 500 otherwise. *)
Lemma serve_v1_failure_status
  (parse : string -> option JsVal) (w : World) (req : Request)
  (st st' : Store) (r : Response) (tr : list Event) :
  run parse V1 w req st = (r, st', tr) ->
  isFailure r = true ->
  (status r = 401%Z <-> unauthenticated w req = true)
  /\ (status r = 403%Z <-> forbidden w req = true)
  /\ (status r = 500%Z <->
      unauthenticated w req = false /\ forbidden w req = false).
Proof.
  intros Hrun Hfail.
  run_cases Hrun; inversion Hrun; subst; clear Hrun;
    try discriminate Hfail;
    unfold unauthenticated, forbidden; use_facts; simpl;
    repeat split; intros; try discriminate; try tauto;
    try match goal with H : _ /\ _ |- _ => destruct H; discriminate end.
Qed.

(** C5 (the OpenAI variant at its authentication and authorization
    failures).  With no Authorization header, with a token the identity
    provider rejects and with the token of a user who is no teacher, the
    OpenAI variant answers 500; the Gemini variant answers 401, 401 and 403
    to the same requests. *)
Theorem serve_v2_auth_failures_are_500 :
  let w := Fixtures.world Fixtures.oneGood_text Fixtures.sixDigits true in
  let p := Fixtures.algebra 1 in
  let answer v auth :=
    fst (fst (run Fixtures.parse v w (Fixtures.post auth p) Fixtures.emptyStore)) in
  answer V2 None = failure 500 "No authorization header"
  /\ answer V2 (Some "Bearer tok-unknown") = failure 500 "Authentication failed"
  /\ answer V2 (Some "Bearer tok-student")
     = failure 500 "Access denied: Teachers only"
  /\ answer V1 None = failure 401 "No authorization header"
  /\ answer V1 (Some "Bearer tok-unknown") = failure 401 "Authentication failed"
  /\ answer V1 (Some "Bearer tok-student")
     = failure 403 "Access denied: Teachers only".
Proof. repeat split; vm_compute; reflexivity. Qed.

(** ** The two variants compared *)

Lemma prefix_app_left :
  forall a b s, prefix (a ++ b) s = true -> prefix a s = true.
Proof.
  induction a as [| c a IH]; intros b s H; [destruct s; reflexivity |].
  destruct s as [| c' s]; simpl in *; [discriminate |].
  destruct (ascii_dec c c'); [eauto | discriminate].
Qed.

Lemma removeAll_without_match (pat : string) :
  forall s, includes pat s = false -> removeAll pat s = s.
Proof.
  unfold removeAll.
  induction s as [| c t IH]; [reflexivity |].
  intros H. apply orb_false_elim in H as [Hp Ht].
  cbn [removeAllAux andb]. rewrite Hp. f_equal. apply IH, Ht.
Qed.

Lemma includes_app_left (a b : string) :
  forall s, includes a s = false -> includes (a ++ b) s = false.
Proof.
  induction s as [| c t IH]; intros H.
  - cbn [includes] in *. apply orb_false_elim in H as [Hp _].
    apply orb_false_intro; auto.
    destruct (prefix (a ++ b) "") eqn:E; auto.
    apply prefix_app_left in E. congruence.
  - apply orb_false_elim in H as [Hp Ht].
    change (includes (a ++ b) (String c t))
      with (prefix (a ++ b) (String c t) || includes (a ++ b) t)%bool.
    apply orb_false_intro; auto.
    destruct (prefix (a ++ b) (String c t)) eqn:E; auto.
    apply prefix_app_left in E. congruence.
Qed.

(** On a completion without code-fence markers the two clients hand the
    same text to [JSON.parse]. *)
Lemma clean_agree_without_fence (raw : string) :
  includes fence raw = false -> clean_v1 raw = clean_v2 raw.
Proof.
  intros H. unfold clean_v1, clean_v2.
  rewrite (removeAll_without_match (fence ++ "json") raw)
    by (apply includes_app_left; exact H).
  rewrite (removeAll_without_match fence raw H). reflexivity.
Qed.

Lemma questionRow_normalize (quizId : nat) (q : JsVal) (index : nat) :
  questionRow quizId (normalize q) index = questionRow quizId q index.
Proof. destruct q; reflexivity. Qed.

Lemma questionsToInsert_normalize (quizId : nat) :
  forall batch index,
    mapWithIndex (questionRow quizId) index (List.map normalize batch)
    = mapWithIndex (questionRow quizId) index batch.
Proof.
  induction batch as [| q rest IH]; intros index; [reflexivity |].
  simpl. rewrite questionRow_normalize, IH. reflexivity.
Qed.

(** C6 (counterexample).  Same world, same well-formed completion, the
    store refusing the question batch: the two variants answer with
    different error texts.  Same world, same request without an
    Authorization header: the Gemini variant answers 401, the OpenAI
    variant 500.  Same world, same fenced completion: the Gemini variant
    creates the quiz, the OpenAI variant fails to parse.  Same world, same
    malformed batch: the Gemini variant refuses it, the OpenAI variant
    persists it. *)
Lemma variants_differ_beyond_wire_format :
  let run_ v raw auth :=
    fst (fst (run Fixtures.parse v
                (Fixtures.world raw Fixtures.sixDigits true)
                (Fixtures.post auth (Fixtures.algebra 1)) Fixtures.emptyStore)) in
  let refused v :=
    fst (fst (run Fixtures.parse v
                (Fixtures.world Fixtures.oneGood_text Fixtures.sixDigits false)
                (Fixtures.post (Some "Bearer tok-teacher") (Fixtures.algebra 1))
                Fixtures.emptyStore)) in
  refused V1 = failure 500 "Failed to create quiz questions"
  /\ refused V2 = failure 500 "Failed to save questions"
  /\ status (run_ V1 Fixtures.oneGood_text None) = 401%Z
  /\ status (run_ V2 Fixtures.oneGood_text None) = 500%Z
  /\ isSuccess (run_ V1 Fixtures.fenced_text (Some "Bearer tok-teacher")) = true
  /\ run_ V2 Fixtures.fenced_text (Some "Bearer tok-teacher")
     = failure 500 "AI returned invalid JSON"
  /\ isSuccess (run_ V1 Fixtures.oneBad_text (Some "Bearer tok-teacher")) = false
  /\ isSuccess (run_ V2 Fixtures.oneBad_text (Some "Bearer tok-teacher")) = true.
Proof. repeat split; vm_compute; reflexivity. Qed.

(** C6 (amended).  The variants coincide on the success path: when the
    Gemini variant returns success, the OpenAI key is configured and the
    OpenAI client returns the same completion, free of code-fence markers,
    then the OpenAI variant returns success with the same status and quiz
    summary, leaves the store in the same state and makes the same store
    calls.  The completion parses to a non-empty batch that passes the
    validator; the questions of the two responses are that batch, in the
    Gemini variant's response with each question reduced to its three
    fields, so the two lists agree after that reduction. *)
Theorem variants_agree_on_success
  (parse : string -> option JsVal) (w : World) (req : Request) (st : Store)
  (params : QuizParams) (raw : string)
  (r1 : Response) (st1 : Store) (tr1 : list Event) :
  json req = inr params ->
  generate w Gemini (prompt_v1 params) = Completion raw ->
  generate w OpenAI (prompt_v2 params) = Completion raw ->
  includes fence raw = false ->
  configured (env_OPENAI_API_KEY w) = true ->
  run parse V1 w req st = (r1, st1, tr1) ->
  isSuccess r1 = true ->
  exists r2 tr2 quiz batch,
    run parse V2 w req st = (r2, st1, tr2)
    /\ parse (clean_v2 raw) = Some (JArr batch)
    /\ batch <> []
    /\ List.forallb accepts batch = true
    /\ status r2 = status r1
    /\ body r2 = SuccessBody quiz batch
    /\ body r1 = SuccessBody quiz (List.map normalize batch)
    /\ filter isStoreWrite tr2 = filter isStoreWrite tr1.
Proof.
  intros Hjson Hgem Hoai Hfence Hkey Hrun Hok.
  run_cases Hrun; inversion Hrun; subst; clear Hrun; try discriminate Hok.
  match goal with
  | H : inr _ = inr _ |- _ => inversion H; subst; clear H
  end.
  rewrite Hgem in *. rewrite Hoai.
  destruct (env_OPENAI_API_KEY w) as [[| k ks] |]; try discriminate Hkey.
  cbn [completion_v1 completion_v2] in *.
  match goal with
  | H : inr _ = inr _ |- _ => inversion H; subst; clear H
  end.
  rewrite <- (clean_agree_without_fence raw Hfence).
  match goal with
  | H : parseQuestions _ _ _ = inr ?batch |- _ =>
      pose proof (parseQuestions_inr _ _ _ _ H) as [Hparse Hne];
      unfold parseQuestions in *; rewrite Hparse in *;
      destruct batch as [| q0 rest]; [congruence |]
  end.
  match goal with
  | H : validateQuestions _ = inr ?out |- _ =>
      pose proof (validateQuestions_length _ _ H) as Hlen;
      unfold validateQuestions in H;
      apply validateQuestions_inr_aux in H as [Hall ->]
  end.
  unfold questionsToInsert in *.
  rewrite questionsToInsert_normalize in *.
  use_facts.
  do 4 eexists. split; [reflexivity |].
  cbn [status body].
  repeat split; try reflexivity; try discriminate; exact Hall.
Qed.

Lemma variants_agree_on_success_witness :
  let w := Fixtures.world Scenarios.oneTagged_text Fixtures.sixDigits true in
  let req := Scenarios.teacherRequest in
  let res1 := run Scenarios.parse V1 w req Scenarios.busyStore in
  includes fence Scenarios.oneTagged_text = false
  /\ configured (env_OPENAI_API_KEY w) = true
  /\ isSuccess (fst (fst res1)) = true
  /\ List.map normalize [Scenarios.taggedQuestion] <> [Scenarios.taggedQuestion]
  /\ exists r2 tr2 quiz batch,
      run Scenarios.parse V2 w req Scenarios.busyStore
      = (r2, snd (fst res1), tr2)
      /\ Scenarios.parse (clean_v2 Scenarios.oneTagged_text) = Some (JArr batch)
      /\ batch <> []
      /\ List.forallb accepts batch = true
      /\ status r2 = status (fst (fst res1))
      /\ body r2 = SuccessBody quiz batch
      /\ body (fst (fst res1)) = SuccessBody quiz (List.map normalize batch)
      /\ filter isStoreWrite tr2 = filter isStoreWrite (snd res1).
Proof.
  intros w req res1.
  split; [vm_compute; reflexivity |].
  split; [reflexivity |].
  split; [vm_compute; reflexivity |].
  split; [vm_compute; discriminate |].
  apply (variants_agree_on_success Scenarios.parse w req Scenarios.busyStore
           (Fixtures.algebra 1) Scenarios.oneTagged_text
           (fst (fst res1)) (snd (fst res1)) (snd res1));
    vm_compute; reflexivity.
Defined.

(** ** Default title and description *)

Lemma quizTitle_nonempty (p : QuizParams) : quizTitle p <> "".
Proof.
  unfold quizTitle, orDefault, orElse.
  destruct (title p) as [[| c t] |]; simpl; discriminate.
Qed.

Lemma quizDescription_nonempty (p : QuizParams) : quizDescription p <> "".
Proof.
  unfold quizDescription, orDefault, orElse.
  destruct (description p) as [[| c t] |]; simpl; discriminate.
Qed.

(** Every quiz insert of a run carries the title and description computed
    by [quizTitle] and [quizDescription] from the request's parameters. *)
Lemma inserted_quiz_columns
  (parse : string -> option JsVal) (v : Variant) (w : World) (req : Request)
  (st st' : Store) (r : Response) (tr : list Event)
  (nq : NewQuiz) (created : option nat) :
  run parse v w req st = (r, st', tr) ->
  In (EvInsertQuiz nq created) tr ->
  exists params,
    json req = inr params
    /\ nq_title nq = quizTitle params
    /\ nq_description nq = quizDescription params.
Proof.
  intros Hrun Hin.
  destruct v; run_cases Hrun; inversion Hrun; subst; clear Hrun;
    split_events; eexists; repeat split.
Qed.

(** C10.  In either variant an empty title (description) is treated as an
    omitted one: both give the default title (description) built from
    subject, topic and complexity, and the two requests have the same
    response, the same store afterwards and the same outbound calls.  The
    title and the description of a quiz insert are those computed from the
    parameters, and they are never empty. *)
Theorem empty_title_and_description_use_defaults
  (parse : string -> option JsVal) (v : Variant) (w : World) (st : Store)
  (meth : string) (auth : option string) (p : QuizParams) :
  let post p := mkRequest meth auth (inr p) in
  (quizTitle (withTitle (Some "") p) = defaultTitle p
   /\ quizTitle (withTitle None p) = defaultTitle p
   /\ quizDescription (withDescription (Some "") p) = defaultDescription p
   /\ quizDescription (withDescription None p) = defaultDescription p)
  /\ run parse v w (post (withTitle (Some "") p)) st
     = run parse v w (post (withTitle None p)) st
  /\ run parse v w (post (withDescription (Some "") p)) st
     = run parse v w (post (withDescription None p)) st
  /\ (forall nq created,
         In (EvInsertQuiz nq created) (snd (run parse v w (post p) st)) ->
         nq_title nq = quizTitle p /\ nq_description nq = quizDescription p
         /\ nq_title nq <> "" /\ nq_description nq <> "").
Proof.
  intros post.
  split; [repeat split |].
  split; [destruct v; reflexivity |].
  split; [destruct v; reflexivity |].
  intros nq created Hin.
  destruct (run parse v w (post p) st) as [[r st'] tr] eqn:Hrun.
  destruct (inserted_quiz_columns parse v w (post p) st st' r tr nq created
              Hrun Hin) as [params [Hj [Ht Hd]]].
  inversion Hj; subst params.
  rewrite Ht, Hd.
  repeat split; auto using quizTitle_nonempty, quizDescription_nonempty.
Qed.

(** ** Range checks *)

(** C4 (counterexample).  The edge function reads the parameters only
    after it has called the identity provider and the store, and tests
    neither field: with [numQuestions] 0, and with [numQuestions] 21 and
    [timePerQuestion] -5, both variants make all five outbound calls and
    answer with success. *)
Lemma range_is_not_checked_before_network_calls :
  let w := Fixtures.world Fixtures.oneGood_text Fixtures.sixDigits true in
  let run_ v p :=
    run Fixtures.parse v w (Fixtures.post (Some "Bearer tok-teacher") p)
        Fixtures.emptyStore in
  let outOfRange := mkQuizParams "Mathematics" "Algebra" 21 Easy (-5) None None in
  isSuccess (fst (fst (run_ V1 (Fixtures.algebra 0)))) = true
  /\ List.length (snd (run_ V1 (Fixtures.algebra 0))) = 5
  /\ isSuccess (fst (fst (run_ V2 (Fixtures.algebra 0)))) = true
  /\ List.length (snd (run_ V2 (Fixtures.algebra 0))) = 5
  /\ isSuccess (fst (fst (run_ V1 outOfRange))) = true
  /\ isSuccess (fst (fst (run_ V2 outOfRange))) = true.
Proof. repeat split; vm_compute; reflexivity. Qed.

(** The submit handler never looks at [timePerQuestion]: changing it changes
    nothing but the form data passed on. *)
Lemma handleSubmit_ignores_timePerQuestion
  (cw : ClientWorld) (formData : QuizParams) (t : Z) :
  let formData' :=
    mkQuizParams (subject formData) (topic formData) (numQuestions formData)
                 (complexity formData) t (title formData)
                 (description formData) in
  existsb isNetworkCall (handleSubmit cw formData') =
  existsb isNetworkCall (handleSubmit
                           (mkClientWorld (refreshSession_ok cw) (getSession_ok cw)
                              (fun fn _ => functions_invoke cw fn formData'))
                           formData).
Proof.
  intros formData'. unfold handleSubmit, submitTry; simpl.
  destruct ((trim (subject formData) =? "")%string
            || (trim (topic formData) =? "")%string)%bool; [reflexivity |].
  destruct ((numQuestions formData <? 1)%Z
            || (numQuestions formData >? 20)%Z)%bool; [reflexivity |].
  destruct (refreshSession_ok cw); [| destruct (getSession_ok cw)]; simpl;
    try reflexivity;
    destruct (functions_invoke cw "generate-quiz-ai" formData')
      as [msg | [| err | quiz qs]]; reflexivity.
Qed.

(** C4 (amended).  The client's submit handler refuses every form whose
    [numQuestions] is below 1 or above 20 with an error toast and without
    any network call; a form with [numQuestions] 1 or 20 and non-blank
    subject and topic passes the check and goes on to the network, starting
    with the session refresh. *)
Theorem handleSubmit_checks_numQuestions
  (cw : ClientWorld) (formData : QuizParams) :
  ((numQuestions formData < 1 \/ 20 < numQuestions formData)%Z ->
   existsb isNetworkCall (handleSubmit cw formData) = false
   /\ exists msg, handleSubmit cw formData = [ToastError msg])
  /\
  ((numQuestions formData = 1 \/ numQuestions formData = 20)%Z ->
   trim (subject formData) <> "" -> trim (topic formData) <> "" ->
   exists rest,
     handleSubmit cw formData = SetLoading true :: NetRefreshSession :: rest).
Proof.
  unfold handleSubmit. split.
  - intros Hrange.
    destruct ((trim (subject formData) =? "")%string
              || (trim (topic formData) =? "")%string)%bool;
      [split; [reflexivity | eauto] |].
    assert (H : ((numQuestions formData <? 1)%Z
                 || (numQuestions formData >? 20)%Z)%bool = true).
    { apply orb_true_iff. destruct Hrange; [left | right].
      - apply Z.ltb_lt; assumption.
      - apply Z.gtb_lt; assumption. }
    rewrite H. split; [reflexivity | eauto].
  - intros Hn Hs Ht.
    apply String.eqb_neq in Hs, Ht. rewrite Hs, Ht. simpl.
    assert (H : ((numQuestions formData <? 1)%Z
                 || (numQuestions formData >? 20)%Z)%bool = false)
      by (destruct Hn as [-> | ->]; reflexivity).
    rewrite H. unfold submitTry.
    destruct (refreshSession_ok cw); [| destruct (getSession_ok cw)];
      simpl;
      try (destruct (functions_invoke cw "generate-quiz-ai" formData)
             as [msg | [| err | quiz qs]]);
      simpl; eauto.
Qed.

Lemma handleSubmit_checks_numQuestions_witness :
  let tooMany := mkQuizParams "Mathematics" "Algebra" 21 Easy 30 None None in
  let most := mkQuizParams "Mathematics" "Algebra" 20 Easy 30 None None in
  (numQuestions tooMany < 1 \/ 20 < numQuestions tooMany)%Z
  /\ existsb isNetworkCall (handleSubmit Fixtures.clientWorld tooMany) = false
  /\ (numQuestions most = 1 \/ numQuestions most = 20)%Z
  /\ exists rest,
      handleSubmit Fixtures.clientWorld most
      = SetLoading true :: NetRefreshSession :: rest.
Proof.
  intros tooMany most.
  assert (H1 : (numQuestions tooMany < 1 \/ 20 < numQuestions tooMany)%Z)
    by (right; reflexivity).
  assert (H2 : (numQuestions most = 1 \/ numQuestions most = 20)%Z)
    by (right; reflexivity).
  split; [exact H1 |].
  split;
    [exact (proj1 (proj1 (handleSubmit_checks_numQuestions
                            Fixtures.clientWorld tooMany) H1)) |].
  split; [exact H2 |].
  apply (proj2 (handleSubmit_checks_numQuestions Fixtures.clientWorld most) H2);
    vm_compute; discriminate.
Defined.

(** * Further properties of the handlers *)

Lemma questionRow_accepted (qid : nat) (q : JsVal) (index : nat) :
  accepts q = true -> exists row, questionRow qid q index = inr row.
Proof.
  destruct q; simpl; try discriminate. intros _. eexists. reflexivity.
Qed.

Lemma questionsToInsert_accepted (qid : nat) :
  forall batch index,
    List.forallb accepts batch = true ->
    exists rows, mapWithIndex (questionRow qid) index batch = inr rows.
Proof.
  induction batch as [| q rest IH]; intros index H; simpl.
  - eexists; reflexivity.
  - simpl in H. apply andb_prop in H as [Hq Hrest].
    destruct (questionRow_accepted qid q index Hq) as [row ->].
    destruct (IH (S index) Hrest) as [rows ->].
    eexists; reflexivity.
Qed.

Lemma mapWithIndex_quiz_id (qid : nat) :
  forall batch index rows,
    mapWithIndex (questionRow qid) index batch = inr rows ->
    Forall (fun row => quiz_id row = qid) rows.
Proof.
  induction batch as [| q rest IH]; simpl; intros index rows H.
  - inversion H. constructor.
  - destruct (questionRow qid q index) as [e | row] eqn:Hrow; try discriminate.
    destruct (mapWithIndex (questionRow qid) (S index) rest) eqn:E;
      try discriminate.
    inversion H; subst. constructor; [| eapply IH; eauto].
    unfold questionRow in Hrow.
    destruct (Js.get q "text"); try discriminate.
    destruct (Js.get q "options"); try discriminate.
    destruct (Js.get q "correctOption"); try discriminate.
    inversion Hrow. reflexivity.
Qed.

(** X1.  The Gemini-backed handler is all-or-nothing on a store whose
    identifiers are fresh, up to a refused compensating delete: either it
    answers with success and the store has gained exactly one quiz row and
    a non-empty batch of question rows that all point to it, or it does
    not answer with success, no question row has been added, and the quiz
    table is as it was before the request, unless the store refused the
    compensating delete, in which case exactly the quiz row the request
    created is left over. *)
Theorem serve_v1_all_or_nothing
  (parse : string -> option JsVal) (w : World) (req : Request)
  (st st' : Store) (r : Response) (tr : list Event) :
  fresh st ->
  run parse V1 w req st = (r, st', tr) ->
  (isSuccess r = true
   /\ exists quizRow rows,
       quizzes st' = (quizzes st ++ [quizRow])%list
       /\ quiz_questions st' = (quiz_questions st ++ rows)%list
       /\ rows <> []
       /\ Forall (fun row => quiz_id row = id quizRow) rows)
  \/
  (isSuccess r = false
   /\ quiz_questions st' = quiz_questions st
   /\ (quizzes st' = quizzes st
       \/ exists quizRow,
           quizzes st' = (quizzes st ++ [quizRow])%list
           /\ id quizRow = next_id st
           /\ quizzes_delete_ok w (id quizRow) = false
           /\ In (EvDeleteQuiz (id quizRow)) tr)).
Proof.
  intros Hfresh Hrun.
  run_cases Hrun; inversion Hrun; subst; clear Hrun;
    try (right; repeat split; left; reflexivity).
  - exfalso.
    match goal with
    | H : validateQuestions _ = inr _ |- _ =>
        unfold validateQuestions in H;
        apply validateQuestions_inr_aux in H as [Hall ->]
    end.
    match goal with
    | H : questionsToInsert ?qid _ = inl _ |- _ =>
        unfold questionsToInsert in H;
        rewrite questionsToInsert_normalize in H;
        destruct (questionsToInsert_accepted qid _ 0 Hall) as [rows Hrows];
        congruence
    end.
  - left. split; [reflexivity |].
    match goal with
    | H : parseQuestions _ _ _ = inr _ |- _ =>
        apply parseQuestions_inr in H as [_ Hne]
    end.
    match goal with
    | H : validateQuestions _ = inr _ |- _ =>
        apply validateQuestions_length in H as Hlen
    end.
    match goal with
    | H : questionsToInsert _ _ = inr ?rows |- _ =>
        pose proof (mapWithIndex_length _ _ _ _ H) as Hlen';
        pose proof (mapWithIndex_quiz_id _ _ _ _ H) as Hids;
        eexists _, rows
    end.
    repeat split; [| exact Hids].
    intros ->.
    match goal with
    | l : list JsVal |- _ => destruct l; [congruence | simpl in *; lia]
    end.
  - right. split; [reflexivity |]. split; [reflexivity |]. left.
    cbn [quizzes]. apply filter_fresh. exact Hfresh.
  - right. split; [reflexivity |]. split; [reflexivity |]. right.
    eexists. split; [reflexivity |]. split; [reflexivity |].
    split; [assumption |]. simpl. auto 10.
Qed.

(** X2.  Status codes of the Gemini-backed handler: a response has status
    200 exactly when it is not a failure; a failure has status 401 exactly
    when the caller is unauthenticated, 403 exactly when the caller is
    authenticated without a teacher record, and 500 in every other case. *)
Theorem serve_v1_status_codes
  (parse : string -> option JsVal) (w : World) (req : Request)
  (st st' : Store) (r : Response) (tr : list Event) :
  run parse V1 w req st = (r, st', tr) ->
  (status r = 200%Z <-> isFailure r = false)
  /\ (isFailure r = true ->
      (status r = 401%Z <-> unauthenticated w req = true)
      /\ (status r = 403%Z <-> forbidden w req = true)
      /\ (status r = 500%Z <->
          unauthenticated w req = false /\ forbidden w req = false)).
Proof.
  intros Hrun.
  run_cases Hrun; inversion Hrun; subst; clear Hrun;
    (split; [split; intros; (reflexivity || discriminate) |]);
    intros Hfail; try discriminate Hfail;
    unfold unauthenticated, forbidden; use_facts; simpl;
    repeat split; intros; try discriminate; try tauto;
    try match goal with H : _ /\ _ |- _ => destruct H; discriminate end.
Qed.

(** X3.  Fail-closed authorization, in both variants: when the caller is
    unauthenticated, or authenticated without a teacher record, the
    response is no success, the store is unchanged, and neither the
    generation API nor the store is called; an unauthenticated caller does
    not even cause a teacher lookup. *)
Theorem unauthorized_requests_touch_nothing
  (parse : string -> option JsVal) (v : Variant) (w : World) (req : Request)
  (st st' : Store) (r : Response) (tr : list Event) :
  unauthenticated w req = true \/ forbidden w req = true ->
  run parse v w req st = (r, st', tr) ->
  isSuccess r = false
  /\ st' = st
  /\ existsb isGenerate tr = false
  /\ existsb isStoreWrite tr = false
  /\ (unauthenticated w req = true -> existsb isTeacherLookup tr = false).
Proof.
  intros Hauth Hrun.
  destruct v; run_cases Hrun; inversion Hrun; subst; clear Hrun;
    try (repeat split; try reflexivity; try (destruct st; reflexivity);
         unfold unauthenticated; use_facts; intros; discriminate);
    exfalso; revert Hauth; unfold unauthenticated, forbidden; use_facts;
    intros [H | H]; discriminate H.
Qed.

(** X4.  The pipeline is linear, in both variants: the outbound calls of a
    run are made in stage order (identity provider, teacher lookup,
    generation, quiz insert, question insert, compensating delete), each
    stage at most once; nothing is retried. *)
Theorem calls_in_stage_order
  (parse : string -> option JsVal) (v : Variant) (w : World) (req : Request)
  (st : Store) :
  increasing (List.map stage (snd (run parse v w req st))) = true.
Proof.
  destruct (run parse v w req st) as [[r st'] tr] eqn:Hrun.
  destruct v; run_cases Hrun; inversion Hrun; subst; clear Hrun; reflexivity.
Qed.

(** X5.  What a success leaves behind, in both variants: the store is the
    old one plus one quiz row, carrying the next identifier, the computed
    title and description, the requested time per question, the generated
    room code, the authenticated user as creator and the type tag
    [classnode], plus the question rows built from the response's
    questions; the response reports that identifier, title, description
    and room code. *)
Theorem success_effect
  (parse : string -> option JsVal) (v : Variant) (w : World) (req : Request)
  (st st' : Store) (r : Response) (tr : list Event) :
  run parse v w req st = (r, st', tr) ->
  isSuccess r = true ->
  exists authHeader user params questions rows,
    authorization req = Some authHeader
    /\ auth_getUser w (replaceFirst "Bearer " "" authHeader) = Some user
    /\ teachers_single w (user_id user) = true
    /\ json req = inr params
    /\ questionsToInsert (next_id st) questions = inr rows
    /\ let columns :=
         mkNewQuiz (quizTitle params) (quizDescription params)
                   (timePerQuestion params) (roomCodeOf (Math_random w))
                   (user_id user) "classnode" in
       st' = mkStore (quizzes st ++ [mkQuizRow (next_id st) columns])
                     (quiz_questions st ++ rows) (S (next_id st))
       /\ r = mkResponse 200
                (SuccessBody
                   (mkQuizSummary (next_id st) (quizTitle params)
                                  (quizDescription params)
                                  (roomCodeOf (Math_random w))
                                  (List.length questions))
                   questions).
Proof.
  intros Hrun Hok.
  destruct v; run_cases Hrun; inversion Hrun; subst; clear Hrun;
    try discriminate Hok;
    match goal with
    | H : negb (teachers_single _ _) = false |- _ =>
        apply negb_false_iff in H
    end;
    do 5 eexists; repeat split; eauto.
Qed.

Lemma questionRow_fields (qid : nat) (q : JsVal) (index : nat)
  (row : QuestionRow) :
  questionRow qid q index = inr row ->
  quiz_id row = qid /\ order_num row = index + 1
  /\ Js.get q "text" = inr (text row)
  /\ Js.get q "options" = inr (options row)
  /\ Js.get q "correctOption" = inr (correct_option row).
Proof.
  unfold questionRow.
  destruct (Js.get q "text"); try discriminate.
  destruct (Js.get q "options"); try discriminate.
  destruct (Js.get q "correctOption"); try discriminate.
  intros H. inversion H. simpl. auto.
Qed.

Lemma mapWithIndex_nth (qid : nat) :
  forall batch base rows,
    mapWithIndex (questionRow qid) base batch = inr rows ->
    forall i row,
      nth_error rows i = Some row ->
      exists q, nth_error batch i = Some q
                /\ questionRow qid q (base + i) = inr row.
Proof.
  induction batch as [| q rest IH]; simpl; intros base rows H i row Hn.
  - inversion H; subst. destruct i; discriminate.
  - destruct (questionRow qid q base) as [e | r0] eqn:Hq; try discriminate.
    destruct (mapWithIndex (questionRow qid) (S base) rest) as [e | rs] eqn:E;
      try discriminate.
    inversion H; subst. destruct i as [| i]; simpl in *.
    + inversion Hn; subst. exists q. rewrite Nat.add_0_r. auto.
    + destruct (IH _ _ E i row Hn) as [q' [Hq' Hrow]].
      exists q'. replace (base + S i) with (S base + i) by lia. auto.
Qed.

(** X6.  Question rows keep the order of the generated array: when the
    rows for a batch can be built there is one row per question, and the
    row at position [i] carries [order_num] [i + 1], the quiz identifier,
    and the [text], [options] and [correctOption] of the question at
    position [i]. *)
Theorem questionsToInsert_keeps_order
  (qid : nat) (batch : list JsVal) (rows : list QuestionRow) :
  questionsToInsert qid batch = inr rows ->
  List.length rows = List.length batch
  /\ forall i row,
      nth_error rows i = Some row ->
      order_num row = i + 1 /\ quiz_id row = qid
      /\ exists q,
          nth_error batch i = Some q
          /\ Js.get q "text" = inr (text row)
          /\ Js.get q "options" = inr (options row)
          /\ Js.get q "correctOption" = inr (correct_option row).
Proof.
  intros H. split; [eapply mapWithIndex_length; exact H |].
  intros i row Hn.
  destruct (mapWithIndex_nth qid batch 0 rows H i row Hn) as [q [Hq Hrow]].
  apply questionRow_fields in Hrow as [Hid [Hord [Ht [Ho Hc]]]].
  simpl in Hord. repeat split; auto. exists q. auto.
Qed.

Lemma drop_app_length :
  forall a t, drop (String.length a) (a ++ t) = t.
Proof. induction a as [| c a IH]; intros t; simpl; auto. Qed.

Lemma prefix_self_app :
  forall a t, prefix a (a ++ t) = true.
Proof.
  induction a as [| c a IH]; intros t; [destruct t; reflexivity |].
  simpl. destruct (ascii_dec c c); [apply IH | congruence].
Qed.

Lemma replaceFirst_unfold (pat rep s : string) :
  replaceFirst pat rep s =
  if prefix pat s then rep ++ drop (String.length pat) s
  else match s with
       | EmptyString => EmptyString
       | String c t => String c (replaceFirst pat rep t)
       end.
Proof. destruct s; reflexivity. Qed.

Lemma replaceFirst_at_start (pat t : string) :
  replaceFirst pat "" (pat ++ t) = t.
Proof.
  rewrite replaceFirst_unfold, prefix_self_app, drop_app_length. reflexivity.
Qed.

Lemma replaceFirst_absent (pat rep : string) :
  forall s, includes pat s = false -> replaceFirst pat rep s = s.
Proof.
  induction s as [| c t IH]; intros H; cbn [includes] in H;
    apply orb_false_elim in H as [Hp Ht]; cbn [replaceFirst]; rewrite Hp.
  - reflexivity.
  - f_equal. apply IH, Ht.
Qed.

(** X7.  The scheme word is optional: a request whose Authorization
    header is the bare token is handled exactly like the request whose
    header is [Bearer ] followed by that token, in both variants. *)
Theorem bare_token_is_accepted
  (parse : string -> option JsVal) (v : Variant) (w : World) (st : Store)
  (meth token : string) (payload : JsError + QuizParams) :
  token <> "" ->
  includes "Bearer " token = false ->
  run parse v w (mkRequest meth (Some ("Bearer " ++ token)) payload) st
  = run parse v w (mkRequest meth (Some token) payload) st.
Proof.
  intros Hne Hbare.
  destruct token as [| c t]; [congruence |].
  pose proof (replaceFirst_at_start "Bearer " (String c t)) as E1.
  pose proof (replaceFirst_absent "Bearer " "" (String c t) Hbare) as E2.
  change ("Bearer " ++ String c t)
    with (String "B" ("earer " ++ String c t)) in *.
  destruct v; unfold run, serve, serve_v1, serve_v2, catch, bind,
    call_getUser, log, ret; cbn [method authorization json];
    rewrite E1, E2; reflexivity.
Qed.

Lemma accepts_normalize (q : JsVal) :
  accepts q = true -> accepts (normalize q) = true /\ normalize (normalize q) = normalize q.
Proof.
  destruct q as [| | b | c | s | items | fields]; simpl; try discriminate.
  intros H. split; [exact H | reflexivity].
Qed.

Lemma forallb_accepts_normalize :
  forall batch,
    List.forallb accepts batch = true ->
    List.forallb accepts (List.map normalize batch) = true
    /\ List.map normalize (List.map normalize batch) = List.map normalize batch.
Proof.
  induction batch as [| q rest IH]; simpl; intros H; [auto |].
  apply andb_prop in H as [Hq Hrest].
  destruct (accepts_normalize q Hq) as [Ha Hn].
  destruct (IH Hrest) as [Har Hnr].
  rewrite Ha, Har, Hn, Hnr. auto.
Qed.

(** X8.  Validation is idempotent: a batch returned by the validator is
    accepted again and returned unchanged, and each of its elements has
    exactly the three fields [text], [options] and [correctOption]. *)
Theorem validateQuestions_idempotent (questions out : list JsVal) :
  validateQuestions questions = inr out ->
  validateQuestions out = inr out
  /\ Forall (fun q => exists t o c,
                 q = JObj [("text", t); ("options", o); ("correctOption", c)])
            out.
Proof.
  intros H. unfold validateQuestions in *.
  apply validateQuestions_inr_aux in H as [Hall ->].
  destruct (forallb_accepts_normalize questions Hall) as [Ha Hn].
  split.
  - apply validateQuestions_inr_aux. split; [exact Ha | symmetry; exact Hn].
  - clear Ha Hn. induction questions as [| q rest IH]; simpl; constructor.
    + simpl in Hall. apply andb_prop in Hall as [Hq _].
      destruct q; try discriminate. simpl. eauto.
    + apply IH. simpl in Hall. apply andb_prop in Hall as [_ H]. exact H.
Qed.

Lemma questionRow_wellFormed (qid : nat) (q : JsVal) (index : nat)
  (row : QuestionRow) :
  accepts q = true ->
  questionRow qid q index = inr row ->
  wellFormedRow row = true.
Proof.
  destruct q as [| | b | c | s | items | fields]; simpl; try discriminate.
  intros Ha H. unfold questionRow in H. simpl in H. inversion H; subst.
  exact Ha.
Qed.

Lemma mapWithIndex_wellFormed (qid : nat) :
  forall batch index rows,
    List.forallb accepts batch = true ->
    mapWithIndex (questionRow qid) index batch = inr rows ->
    List.forallb wellFormedRow rows = true.
Proof.
  induction batch as [| q rest IH]; simpl; intros index rows Hall H.
  - inversion H. reflexivity.
  - apply andb_prop in Hall as [Hq Hrest].
    destruct (questionRow qid q index) as [e | row] eqn:Hrow; try discriminate.
    destruct (mapWithIndex (questionRow qid) (S index) rest) eqn:E;
      try discriminate.
    inversion H; subst. simpl.
    rewrite (questionRow_wellFormed _ _ _ _ Hq Hrow). eapply IH; eauto.
Qed.

(** X9.  Every question row the Gemini-backed handler hands to the store
    has a truthy text, an options array of length 4 and a numeric answer
    index between 0 and 3, and every such row that reaches the table
    does. *)
Theorem serve_v1_persists_wellformed_rows
  (parse : string -> option JsVal) (w : World) (req : Request)
  (st st' : Store) (r : Response) (tr : list Event) :
  run parse V1 w req st = (r, st', tr) ->
  (forall rows ok, In (EvInsertQuestions rows ok) tr ->
                   List.forallb wellFormedRow rows = true)
  /\ (List.forallb wellFormedRow (quiz_questions st) = true ->
      List.forallb wellFormedRow (quiz_questions st') = true).
Proof.
  intros Hrun.
  run_cases Hrun; inversion Hrun; subst; clear Hrun;
    (split; [intros rows ok Hin; split_events | intros Hst; try exact Hst]).
  all: match goal with
       | H : validateQuestions _ = inr _ |- _ =>
           unfold validateQuestions in H;
           apply validateQuestions_inr_aux in H as [Hall ->]
       end;
       match goal with
       | H : questionsToInsert _ _ = inr _ |- _ =>
           unfold questionsToInsert in H;
           rewrite questionsToInsert_normalize in H;
           pose proof (mapWithIndex_wellFormed _ _ _ _ Hall H) as Hrows
       end; try exact Hrows.
  cbn [quiz_questions]. rewrite forallb_app, Hst, Hrows. reflexivity.
Qed.

Lemma forallb_spec_accepts :
  forall batch,
    List.forallb spec_validQuestion batch = true ->
    List.forallb accepts batch = true.
Proof.
  induction batch as [| q rest IH]; simpl; intros H; [reflexivity |].
  apply andb_prop in H as [Hq Hrest].
  rewrite (spec_validQuestion_accepts q Hq). auto.
Qed.

(** X10.  The validator refuses no well-formed batch: when every question
    has a non-empty string for text, exactly four strings for options and
    an integer from 0 to 3 for the answer index, the batch is returned,
    each question reduced to its three fields. *)
Theorem validateQuestions_accepts_wellformed (questions : list JsVal) :
  List.forallb spec_validQuestion questions = true ->
  validateQuestions questions = inr (List.map normalize questions).
Proof.
  intros H. apply validateQuestions_inr_aux.
  split; [apply forallb_spec_accepts; exact H | reflexivity].
Qed.

(** X11.  When the store refuses the quiz insert, in both variants, the
    response is the failure [Failed to create quiz] with status 500, the
    store is unchanged, and the refused insert is the last outbound call:
    no question insert and no delete follow. *)
Theorem refused_quiz_insert_ends_the_run
  (parse : string -> option JsVal) (v : Variant) (w : World) (req : Request)
  (st st' : Store) (r : Response) (tr : list Event) (nq : NewQuiz) :
  run parse v w req st = (r, st', tr) ->
  In (EvInsertQuiz nq None) tr ->
  r = failure 500 "Failed to create quiz"
  /\ st' = st
  /\ exists before, tr = (before ++ [EvInsertQuiz nq None])%list
                    /\ existsb isStoreWrite before = false.
Proof.
  intros Hrun Hin.
  destruct v; run_cases Hrun; inversion Hrun; subst; clear Hrun;
    split_events;
    repeat split; eexists [_; _; _]; split; reflexivity.
Qed.

(** X12.  No store call without a parsed batch, in both variants: whenever
    a run calls the store at all, the request's body was readable, the API
    key was configured, the generation API returned a completion, and the
    cleaned completion parsed to a non-empty array. *)
Theorem store_calls_need_parsed_batch
  (parse : string -> option JsVal) (v : Variant) (w : World) (req : Request)
  (st st' : Store) (r : Response) (tr : list Event) :
  run parse v w req st = (r, st', tr) ->
  existsb isStoreWrite tr = true ->
  exists params raw batch,
    json req = inr params
    /\ configured (apiKeyOf v w) = true
    /\ generate w (vendorOf v) (promptOf v params) = Completion raw
    /\ parse (cleanOf v raw) = Some (JArr batch)
    /\ batch <> [].
Proof.
  intros Hrun Hw.
  destruct v; run_cases Hrun; inversion Hrun; subst; clear Hrun;
    try discriminate Hw.
  all: try match goal with
           | H : completion_v1 _ = inr _ |- _ =>
               apply completion_v1_inr in H as [raw [Hraw ->]]
           end;
       try match goal with
           | H : completion_v2 _ = inr _ |- _ =>
               apply completion_v2_inr in H as [raw [Hraw ->]]
           end;
       match goal with
       | H : parseQuestions _ _ _ = inr ?batch, Hj : json _ = inr ?params |- _ =>
           apply parseQuestions_inr in H as [Hparse Hne];
           exists params, raw, batch
       end;
       repeat split; auto;
       match goal with
       | H : ?k = Some _ |- configured ?k = true => rewrite H; reflexivity
       end.
Qed.

Lemma filter_keeps_others (n : nat) :
  forall rows row,
    In row rows -> id row <> n ->
    In row (filter (fun r => negb (id r =? n)) rows).
Proof.
  intros rows row Hin Hne. apply filter_In. split; [exact Hin |].
  apply negb_true_iff, Nat.eqb_neq, Hne.
Qed.

(** X13.  A request never loses what was stored before, in both variants:
    on a store with fresh identifiers every earlier quiz row and every
    earlier question row is still there after the run, the next
    identifier does not decrease, and the identifiers are fresh again. *)
Theorem run_preserves_existing_rows
  (parse : string -> option JsVal) (v : Variant) (w : World) (req : Request)
  (st st' : Store) (r : Response) (tr : list Event) :
  fresh st ->
  run parse v w req st = (r, st', tr) ->
  (forall row, In row (quizzes st) -> In row (quizzes st'))
  /\ (exists added, quiz_questions st' = (quiz_questions st ++ added)%list)
  /\ next_id st <= next_id st'
  /\ fresh st'.
Proof.
  intros Hfresh Hrun.
  destruct v; run_cases Hrun; inversion Hrun; subst; clear Hrun;
    cbn [quizzes quiz_questions next_id];
    (split; [intros row Hin |
             split; [first [exists []; rewrite app_nil_r; reflexivity
                           | eexists; reflexivity] |
                     split; [lia |]]]);
    try exact Hin;
    try (apply in_or_app; left; exact Hin);
    try (apply filter_keeps_others;
         [apply in_or_app; left; exact Hin
         | specialize (Hfresh row Hin); simpl; lia]);
    try exact Hfresh;
    unfold fresh; cbn [quizzes next_id]; intros row' Hin';
    try (apply filter_In in Hin' as [Hin' _]);
    try (apply in_app_or in Hin' as [Hin' | [<- | []]]; simpl;
         [specialize (Hfresh row' Hin') |]; lia);
    specialize (Hfresh row' Hin'); lia.
Qed.

(** * Further properties of the string helpers *)

Lemma substring_length_min :
  forall s n m,
    String.length (String.substring n m s) = Nat.min m (String.length s - n).
Proof.
  induction s as [| c t IH]; intros n m.
  - destruct n, m; simpl; lia.
  - destruct n as [| n]; destruct m as [| m]; simpl; try lia.
    + rewrite IH. simpl. rewrite Nat.sub_0_r. reflexivity.
    + rewrite IH. reflexivity.
    + rewrite IH. reflexivity.
Qed.

(** X14.  A room code has as many characters as the random value has
    base-36 digits, up to six, and consists of uppercase letters and
    digits only. *)
Theorem roomCode_length (random : list N) :
  String.length (roomCodeOf random) = Nat.min 6 (List.length random)
  /\ every isUpperAlnum (roomCodeOf random) = true.
Proof.
  split; [| apply roomCode_shape].
  unfold roomCodeOf, toUpperCase, substring.
  rewrite mapChars_length, substring_length_min.
  destruct random as [| d rest]; [reflexivity |].
  unfold toString36.
  change ("0." ++ ?s) with (String "0" (String "." s)).
  cbn [String.length]. rewrite digits_string_length. simpl. lia.
Qed.

Lemma trimEnd_blank :
  forall w, every isWhiteSpace w = true -> trimEnd w = "".
Proof.
  induction w as [| c t IH]; simpl; intros H; [reflexivity |].
  apply andb_prop in H as [Hc Ht]. rewrite (IH Ht), Hc. reflexivity.
Qed.

Lemma trimStart_blank :
  forall w, every isWhiteSpace w = true -> trimStart w = "".
Proof.
  induction w as [| c t IH]; simpl; intros H; [reflexivity |].
  apply andb_prop in H as [Hc Ht]. rewrite Hc. auto.
Qed.

Lemma trimEnd_app_blank (w : string) :
  every isWhiteSpace w = true ->
  forall s, trimEnd (s ++ w) = trimEnd s.
Proof.
  intros Hw. induction s as [| c t IH]; simpl.
  - apply trimEnd_blank, Hw.
  - rewrite IH. reflexivity.
Qed.

Lemma trimStart_app_blank (w : string) :
  every isWhiteSpace w = true ->
  forall s, trimEnd (trimStart (s ++ w)) = trimEnd (trimStart s).
Proof.
  intros Hw. induction s as [| c t IH]; simpl.
  - rewrite (trimStart_blank w Hw). reflexivity.
  - destruct (isWhiteSpace c); [exact IH |].
    apply (trimEnd_app_blank w Hw (String c t)).
Qed.

Lemma trim_app_blank (s w : string) :
  every isWhiteSpace w = true -> trim (s ++ w) = trim s.
Proof. intros Hw. apply trimStart_app_blank, Hw. Qed.

Lemma trimEnd_idempotent :
  forall s, trimEnd (trimEnd s) = trimEnd s.
Proof.
  induction s as [| c t IH]; [reflexivity |].
  cbn [trimEnd].
  destruct (isWhiteSpace c && (trimEnd t =? "")%string)%bool eqn:E;
    [reflexivity |].
  cbn [trimEnd]. rewrite IH, E. reflexivity.
Qed.

Lemma trimStart_trimEnd :
  forall s, trimStart (trimEnd (trimStart s)) = trimEnd (trimStart s).
Proof.
  induction s as [| c t IH]; [reflexivity |].
  cbn [trimStart]. destruct (isWhiteSpace c) eqn:E; [exact IH |].
  cbn [trimEnd]. rewrite E. cbn [andb trimStart]. rewrite E. reflexivity.
Qed.

Lemma trim_idempotent (s : string) : trim (trim s) = trim s.
Proof.
  unfold trim. rewrite trimStart_trimEnd. apply trimEnd_idempotent.
Qed.

(** X15.  Whatever the model returned, the text the Gemini client hands
    to [JSON.parse] contains no code-fence marker anywhere and has no
    white space at either end. *)
Theorem clean_v1_fence_free_and_trimmed (raw : string) :
  includes fence (clean_v1 raw) = false
  /\ trim (clean_v1 raw) = clean_v1 raw.
Proof.
  split; [apply clean_v1_fence_free |].
  unfold clean_v1. apply trim_idempotent.
Qed.

Lemma removeAllAux_plain (p : string) :
  forall inner rest,
    every noBacktick inner = true ->
    removeAllAux (String backtick p) 0 false (inner ++ rest)
    = inner ++ removeAllAux (String backtick p) 0 false rest.
Proof.
  induction inner as [| c t IH]; intros rest H; [reflexivity |].
  simpl in H. apply andb_prop in H as [Hc Ht].
  change (String c t ++ rest) with (String c (t ++ rest)).
  cbn [removeAllAux andb]. rewrite prefix_cons.
  unfold noBacktick in Hc. apply negb_true_iff in Hc. rewrite Hc.
  cbn [andb]. rewrite (IH rest Ht). reflexivity.
Qed.

(** X16.  The Gemini client unwraps a fenced completion: for a body
    without backticks, the body wrapped in a [json] code fence, or in a
    plain code fence, is cleaned to the trimmed body. *)
Theorem clean_v1_unwraps_fenced_block (inner : string) :
  every noBacktick inner = true ->
  clean_v1 (fence ++ "json" ++ nl ++ inner ++ nl ++ fence) = trim inner
  /\ clean_v1 (fence ++ nl ++ inner ++ nl ++ fence) = trim inner.
Proof.
  intros Hbody. unfold clean_v1, removeAll.
  assert (Hjson : removeAllAux (fence ++ "json") 0 false
                    (fence ++ "json" ++ nl ++ inner ++ nl ++ fence)
                  = inner ++ nl ++ fence).
  { change (removeAllAux (fence ++ "json") 0 false
              (fence ++ "json" ++ nl ++ inner ++ nl ++ fence))
      with (removeAllAux (String backtick ("``json")) 0 false
              (inner ++ nl ++ fence)).
    rewrite (removeAllAux_plain _ inner _ Hbody). reflexivity. }
  assert (Hplain : removeAllAux (fence ++ "json") 0 false
                     (fence ++ nl ++ inner ++ nl ++ fence)
                   = fence ++ nl ++ inner ++ nl ++ fence).
  { change (removeAllAux (fence ++ "json") 0 false
              (fence ++ nl ++ inner ++ nl ++ fence))
      with (fence ++ nl
              ++ removeAllAux (String backtick ("``json")) 0 false
                   (inner ++ nl ++ fence)).
    rewrite (removeAllAux_plain _ inner _ Hbody). reflexivity. }
  assert (Hfence : removeAllAux fence 0 false (inner ++ nl ++ fence)
                   = inner ++ nl).
  { change fence with (String backtick "``") at 1.
    rewrite (removeAllAux_plain _ inner _ Hbody). reflexivity. }
  assert (Hfence' : removeAllAux fence 0 false
                      (fence ++ nl ++ inner ++ nl ++ fence)
                    = inner ++ nl).
  { change (removeAllAux fence 0 false (fence ++ nl ++ inner ++ nl ++ fence))
      with (removeAllAux (String backtick "``") 0 false (inner ++ nl ++ fence)).
    rewrite (removeAllAux_plain _ inner _ Hbody). reflexivity. }
  rewrite Hjson, Hplain, Hfence, Hfence'.
  split; apply trim_app_blank; reflexivity.
Qed.

(** * Further properties of the submit handler *)

Lemma trim_blank (s : string) :
  every isWhiteSpace s = true -> trim s = "".
Proof. intros H. unfold trim. rewrite (trimStart_blank s H). reflexivity. Qed.

(** X17.  A form whose subject or topic consists of white space only is
    refused with the toast [Please fill in all required fields], and
    nothing else happens. *)
Theorem handleSubmit_refuses_blank_fields
  (cw : ClientWorld) (formData : QuizParams) :
  every isWhiteSpace (subject formData) = true
  \/ every isWhiteSpace (topic formData) = true ->
  handleSubmit cw formData = [ToastError "Please fill in all required fields"].
Proof.
  intros [H | H]; unfold handleSubmit; rewrite (trim_blank _ H); simpl;
    [| rewrite orb_true_r]; reflexivity.
Qed.

(** X18.  The edge function is invoked at most once per submit, only
    under the name [generate-quiz-ai] and with the form data as they are,
    and only when subject and topic are not blank, [numQuestions] lies
    between 1 and 20 and a session with an access token was found. *)
Theorem handleSubmit_invokes_checked_form
  (cw : ClientWorld) (formData : QuizParams) :
  List.length (filter isInvoke (handleSubmit cw formData)) <= 1
  /\ forall fn payload,
      In (NetInvoke fn payload) (handleSubmit cw formData) ->
      fn = "generate-quiz-ai" /\ payload = formData
      /\ trim (subject formData) <> "" /\ trim (topic formData) <> ""
      /\ (1 <= numQuestions formData <= 20)%Z
      /\ (refreshSession_ok cw = true \/ getSession_ok cw = true).
Proof.
  unfold handleSubmit, submitTry.
  destruct (trim (subject formData) =? "")%string eqn:Hs;
    [split; [simpl; lia | intros fn payload [H | []]; discriminate] |].
  destruct (trim (topic formData) =? "")%string eqn:Ht;
    [split; [simpl; lia | intros fn payload [H | []]; discriminate] |].
  apply String.eqb_neq in Hs, Ht. cbn [orb].
  destruct (numQuestions formData <? 1)%Z eqn:Hlo;
    [split; [simpl; lia | intros fn payload [H | []]; discriminate] |].
  destruct (numQuestions formData >? 20)%Z eqn:Hhi;
    [split; [simpl; lia | intros fn payload [H | []]; discriminate] |].
  apply Z.ltb_ge in Hlo. rewrite Z.gtb_ltb in Hhi. apply Z.ltb_ge in Hhi.
  cbn [orb].
  destruct (refreshSession_ok cw); [| destruct (getSession_ok cw)];
    try destruct (functions_invoke cw "generate-quiz-ai" formData)
      as [msg | [| err | quiz qs]];
    unfold submitCatch;
    repeat match goal with
           | |- context [includes ?a ?b] => destruct (includes a b)
           end;
    (split; [simpl; lia |]);
    intros fn payload Hin; simpl in Hin;
    repeat match goal with
           | H : _ \/ _ |- _ => destruct H
           | H : False |- _ => destruct H
           | H : _ = NetInvoke _ _ |- _ => inversion H; subst; clear H
           end;
    try discriminate;
    repeat split; auto; lia.
Qed.

Ltac client_events :=
  simpl in *;
  repeat match goal with
         | H : _ \/ _ |- _ => destruct H
         | H : False |- _ => destruct H
         | H : @eq ClientEvent _ _ |- _ => inversion H; subst; clear H
         | H : exists _, _ |- _ => destruct H
         end.

(** X19.  Every submit gives the user exactly one toast.  The page
    navigates only to [/teacher], and it does so exactly when the form
    passes both checks, a session is obtained (by refresh or, failing that,
    as the current one) and the edge function's data reports success; that
    is also exactly when the toast is a success toast.  Once the loading
    flag has been raised, lowering it is the last thing the handler does. *)
Theorem handleSubmit_feedback (cw : ClientWorld) (formData : QuizParams) :
  let events := handleSubmit cw formData in
  List.length (filter isClientToast events) = 1
  /\ (forall path, In (Navigate path) events -> path = "/teacher")
  /\ (In (Navigate "/teacher") events <->
      trim (subject formData) <> "" /\ trim (topic formData) <> ""
      /\ (1 <= numQuestions formData <= 20)%Z
      /\ (refreshSession_ok cw = true \/ getSession_ok cw = true)
      /\ exists quiz questions,
          functions_invoke cw "generate-quiz-ai" formData
          = InvokeData (SuccessBody quiz questions))
  /\ (In (Navigate "/teacher") events <->
      exists msg, In (ToastSuccess msg) events)
  /\ (In (SetLoading true) events ->
      last events (SetLoading true) = SetLoading false).
Proof.
  unfold handleSubmit, submitTry.
  destruct (String.eqb_spec (trim (subject formData)) "") as [Hs | Hs];
    [| destruct (String.eqb_spec (trim (topic formData)) "") as [Ht | Ht];
       [| cbn [orb];
          destruct (Z.ltb_spec (numQuestions formData) 1) as [Hlo | Hlo];
          [| rewrite Z.gtb_ltb;
             destruct (Z.ltb_spec 20 (numQuestions formData)) as [Hhi | Hhi];
             [| cbn [orb];
                destruct (refreshSession_ok cw) eqn:Href;
                [| destruct (getSession_ok cw) eqn:Hget];
                try destruct (functions_invoke cw "generate-quiz-ai" formData)
                  as [msg | [| err | quiz qs]] eqn:Hinv]]]];
    cbn [orb]; cbn zeta; unfold submitCatch;
    repeat match goal with
           | |- context [includes ?a ?b] => destruct (includes a b)
           end;
    (split; [reflexivity |]);
    (split; [intros path Hin; client_events; reflexivity |]);
    (split;
     [split;
      [intros Hin; client_events; try discriminate;
       repeat split; auto; try lia; eauto
      | intros [Hs' [Ht' [[Hlo' Hhi'] [Hsess [quiz' [qs' Hinv']]]]]];
        try contradiction; try lia;
        try (destruct Hsess; discriminate);
        try discriminate Hinv';
        simpl; auto 10] |]);
    (split;
     [split;
      [intros Hin; client_events; try discriminate; eexists; simpl; eauto 10
      | intros [m Hin]; client_events; try discriminate; simpl; auto 10] |]);
    intros Hin; client_events; try discriminate; reflexivity.
Qed.

(** X20.  An error that mentions 401 is reported as an expired session:
    when the form passes the checks, a session is found and the edge
    function call fails with an error whose message contains [401], the
    only toast is [Session expired. Please log in again.] and the page does
    not navigate. *)
Theorem handleSubmit_reports_expired_session
  (cw : ClientWorld) (formData : QuizParams) (msg : string) :
  trim (subject formData) <> "" ->
  trim (topic formData) <> "" ->
  (1 <= numQuestions formData <= 20)%Z ->
  refreshSession_ok cw = true \/ getSession_ok cw = true ->
  functions_invoke cw "generate-quiz-ai" formData = InvokeError msg
  \/ functions_invoke cw "generate-quiz-ai" formData
     = InvokeData (FailureBody msg) ->
  includes "401" msg = true ->
  filter isClientToast (handleSubmit cw formData)
  = [ToastError "Session expired. Please log in again."]
  /\ filter isNavigation (handleSubmit cw formData) = [].
Proof.
  intros Hs Ht [Hlo Hhi] Hsession Hinv H401.
  unfold handleSubmit, submitTry.
  apply String.eqb_neq in Hs, Ht. rewrite Hs, Ht. cbn [orb].
  apply Z.ltb_ge in Hlo. rewrite Hlo.
  assert (Hhi' : (numQuestions formData >? 20)%Z = false)
    by (rewrite Z.gtb_ltb; apply Z.ltb_ge; exact Hhi).
  rewrite Hhi'. cbn [orb].
  assert (Hmsg : orElse msg "Failed to generate quiz" = msg
                 /\ orElse msg "Quiz generation failed" = msg).
  { unfold orElse. destruct msg; [discriminate H401 | auto]. }
  destruct Hmsg as [Hm1 Hm2].
  destruct Hsession as [Hr | Hg];
    [rewrite Hr | destruct (refreshSession_ok cw); [| rewrite Hg]];
    destruct Hinv as [-> | ->];
    unfold submitCatch; cbn [message]; rewrite ?Hm1, ?Hm2, H401;
    split; reflexivity.
Qed.

(** * Properties of the authentication context *)

Module AuthContextFacts.

Import AuthContext.

Lemma getItem_removeItem_same (key : string) :
  forall items, getItem key (removeItem key items) = None.
Proof.
  induction items as [| [k v] rest IH]; [reflexivity |].
  unfold removeItem in *. cbn [filter fst].
  destruct (k =? key)%string eqn:E; cbn [negb]; [exact IH |].
  cbn [getItem]. rewrite E. exact IH.
Qed.

Lemma getItem_removeItem_other (key other : string) :
  other <> key ->
  forall items, getItem other (removeItem key items) = getItem other items.
Proof.
  intros Hne. induction items as [| [k v] rest IH]; [reflexivity |].
  unfold removeItem in *. cbn [filter fst].
  destruct (k =? key)%string eqn:E; cbn [negb getItem].
  - apply String.eqb_eq in E. subst k.
    destruct (key =? other)%string eqn:E'; [| exact IH].
    apply String.eqb_eq in E'. congruence.
  - rewrite IH. reflexivity.
Qed.

Lemma getItem_setItem_same (key value : string) (items : list (string * string)) :
  getItem key (setItem key value items) = Some value.
Proof. unfold setItem. cbn [getItem]. rewrite String.eqb_refl. reflexivity. Qed.

Lemma getItem_setItem_other (key other value : string)
  (items : list (string * string)) :
  other <> key ->
  getItem other (setItem key value items) = getItem other items.
Proof.
  intros Hne. unfold setItem. cbn [getItem].
  destruct (key =? other)%string eqn:E.
  - apply String.eqb_eq in E. congruence.
  - apply getItem_removeItem_other, Hne.
Qed.

(** X21.  [teacherLogin] resolves to true exactly when the sign-in
    returned a user without an error, the teacher fetch returned a row
    without an error and the active-quiz fetch did not reject.  Then the
    user is that teacher, the room code is the one of the active quiz (or
    none), the loading flag is down, and the last two things done are the
    welcome toast and the navigation to [/teacher]. *)
Theorem teacherLogin_success
  (w : AuthWorld) (email password : string) (s : State) :
  fst (fst (teacherLogin w email password s)) = true <->
  exists uid row quiz,
    signInWithPassword w email password = Returned (mkAuthReply None (Some uid))
    /\ fetchTeacher w uid = Returned (mkTeacherReply None (Some row))
    /\ fetchActiveQuiz w (t_id row) = Returned quiz
    /\ teacherLogin w email password s
       = (true,
          mkAuth (Some (teacherUser row)) quiz false
                 (isPasswordRecovery s) (localStorage s),
          [CallSignIn email password; CallFetchTeacher uid;
           CallFetchActiveQuiz (t_id row);
           ToastSuccess ("Welcome back, " ++ t_name row ++ "!");
           Navigate "/teacher" true]).
Proof.
  unfold teacherLogin. split.
  - destruct (signInWithPassword w email password)
      as [[[msg |] [uid |]] |]; try discriminate.
    destruct (fetchTeacher w uid) as [[[msg |] [row |]] |] eqn:Hteacher;
      try discriminate.
    destruct (fetchActiveQuiz w (t_id row)) as [quiz |] eqn:Hquiz;
      try discriminate.
    intros _. exists uid, row, quiz. repeat split; assumption.
  - intros [uid [row [quiz [H1 [H2 [H3 H4]]]]]].
    rewrite H1, H2, H3. reflexivity.
Qed.

(** X22.  However [teacherLogin] ends, the loading flag is down and the
    recovery flag and [localStorage] are untouched.  When it resolves to
    false, the page does not navigate, no success toast is shown, at most
    one toast is shown, the room code is unchanged, and the user is
    unchanged unless the teacher row had been fetched and the active-quiz
    fetch then rejected. *)
Theorem teacherLogin_failure
  (w : AuthWorld) (email password : string) (s : State) :
  let '(ok, s', events) := teacherLogin w email password s in
  isLoading s' = false
  /\ isPasswordRecovery s' = isPasswordRecovery s
  /\ localStorage s' = localStorage s
  /\ (ok = false ->
      existsb isNavigate events = false
      /\ filter isToast events = filter isErrorToast events
      /\ List.length (filter isToast events) <= 1
      /\ roomCode s' = roomCode s
      /\ (user s' = user s
          \/ exists uid row,
              fetchTeacher w uid = Returned (mkTeacherReply None (Some row))
              /\ fetchActiveQuiz w (t_id row) = Threw
              /\ user s' = Some (teacherUser row))).
Proof.
  unfold teacherLogin.
  destruct (signInWithPassword w email password)
    as [[[msg |] [uid |]] |];
    try (repeat split; simpl; auto; fail).
  destruct (fetchTeacher w uid) as [[[msg |] [row |]] |] eqn:Hteacher;
    try (repeat split; simpl; auto; fail).
  destruct (fetchActiveQuiz w (t_id row)) as [quiz |] eqn:Hquiz.
  - repeat split; intros; discriminate.
  - repeat split; simpl; auto. right. exists uid, row. auto.
Qed.

(** X23.  [teacherSignup] resolves to true exactly when the sign-up
    returned a user without an error and the insert of the teacher record
    returned no error; the teacher record is inserted only after the
    sign-up returned a user.  On true the user is the new teacher and the
    room code has at most six characters, all uppercase letters or digits;
    otherwise user and room code are unchanged.  The loading flag always
    ends down. *)
Theorem teacherSignup_outcome
  (w : AuthWorld) (random : list N) (name email password : string)
  (s : State) :
  let '(ok, s', events) := teacherSignup w random name email password s in
  isLoading s' = false
  /\ (ok = true <->
      exists uid,
        signUp w name email password = Returned (mkAuthReply None (Some uid))
        /\ insertTeacher w uid name email = Returned None)
  /\ (forall uid n e, In (CallInsertTeacher uid n e) events ->
        n = name /\ e = email
        /\ signUp w name email password = Returned (mkAuthReply None (Some uid)))
  /\ (ok = true ->
      (exists uid, user s' = Some (mkAuthUser uid name Teacher (Some email)))
      /\ exists code, roomCode s' = Some code
                      /\ String.length code <= 6
                      /\ every isUpperAlnum code = true)
  /\ (ok = false ->
      user s' = user s /\ roomCode s' = roomCode s
      /\ existsb isNavigate events = false).
Proof.
  unfold teacherSignup.
  assert (Hcode : String.length (roomCodeOf random) <= 6
                  /\ every isUpperAlnum (roomCodeOf random) = true)
    by (split; apply roomCode_shape).
  destruct (signUp w name email password) as [[[msg |] [uid |]] |] eqn:Hup.
  1, 2, 4, 5:
    (split; [reflexivity |]);
    (split; [split; [discriminate | intros [u [H _]]; discriminate H] |]);
    (split; [intros u n e Hin; simpl in Hin;
             repeat (destruct Hin as [Hin | Hin]; try discriminate Hin);
             destruct Hin |]);
    (split; [discriminate | intros _; repeat split]).
  destruct (insertTeacher w uid name email) as [[msg' |] |] eqn:Hins.
  1, 3:
    (split; [reflexivity |]);
    (split; [split; [discriminate
                    | intros [u [H1 H2]]; inversion H1; subst u;
                      rewrite Hins in H2; discriminate H2] |]);
    (split; [intros u n e Hin; simpl in Hin;
             repeat (destruct Hin as [Hin | Hin]; try discriminate Hin);
             [inversion Hin; subst; auto | destruct Hin] |]);
    (split; [discriminate | intros _; repeat split]).
  split; [reflexivity |].
  split; [split; [intros _; exists uid; auto | reflexivity] |].
  split.
  { intros u n e Hin; simpl in Hin.
    repeat (destruct Hin as [Hin | Hin]; try discriminate Hin);
      [inversion Hin; subst; auto | destruct Hin]. }
  split; [| discriminate].
  intros _. split; [exists uid; reflexivity |].
  exists (roomCodeOf random). split; [reflexivity | exact Hcode].
Qed.

(** X24.  [login] as a teacher draws a room code, keeps it in the state
    and under [quizRoomCode] in [localStorage], and navigates to
    [/teacher]; as a student it touches neither and navigates to
    [/student].  In both cases the user with the given name and role is set
    and its JSON text is stored under [quizUser].  The create-quiz page
    then sends a student away and lets a teacher stay. *)
Theorem login_by_role
  (now : Z) (random1 random2 : list N) (name : string) (role : UserRole)
  (s : State) :
  let '(s', events) := login now random1 random2 name role s in
  (exists u, user s' = Some u /\ au_name u = name /\ au_role u = role
             /\ getItem "quizUser" (localStorage s') = Some (stringifyUser u))
  /\ match role with
     | Teacher =>
         roomCode s' = Some (roomCodeOf random2)
         /\ getItem "quizRoomCode" (localStorage s')
            = Some (roomCodeOf random2)
         /\ filter isNavigate events = [Navigate "/teacher" false]
         /\ createQuizGuard (user s') = []
     | Student =>
         roomCode s' = roomCode s
         /\ getItem "quizRoomCode" (localStorage s')
            = getItem "quizRoomCode" (localStorage s)
         /\ filter isNavigate events = [Navigate "/student" false]
         /\ createQuizGuard (user s') = [Navigate "/" false]
     end.
Proof.
  unfold login. destruct role; cbn [user roomCode localStorage storageSet
                                     setUser setRoomCode].
  - split; [eexists |]; repeat split.
  - split; [eexists |]; repeat split.
    apply getItem_setItem_other. discriminate.
Qed.

(** X25.  A [logout] whose sign-out call comes back, with or without an
    error object, clears the user and the room code, removes [quizUser]
    and [quizRoomCode] from [localStorage] and leaves every other key as it
    was; a [logout] whose sign-out call rejects changes nothing. *)
Theorem logout_clears_session (w : AuthWorld) (s : State) :
  (forall e, signOut w = Returned e ->
     let s' := fst (logout w s) in
     user s' = None /\ roomCode s' = None
     /\ getItem "quizUser" (localStorage s') = None
     /\ getItem "quizRoomCode" (localStorage s') = None
     /\ (forall key, key <> "quizUser" -> key <> "quizRoomCode" ->
           getItem key (localStorage s') = getItem key (localStorage s))
     /\ snd (logout w s)
        = [CallSignOut; Navigate "/" false; ToastInfo "Logged out successfully"])
  /\ (signOut w = Threw ->
      logout w s = (s, [CallSignOut; ToastError "Failed to logout"])).
Proof.
  unfold logout. split.
  - intros e ->.
    cbn [fst snd user roomCode localStorage storageRemove setRoomCode setUser].
    repeat split.
    + rewrite getItem_removeItem_other by discriminate.
      apply getItem_removeItem_same.
    + apply getItem_removeItem_same.
    + intros key H1 H2.
      rewrite !getItem_removeItem_other by assumption. reflexivity.
  - intros ->. reflexivity.
Qed.

(** X26.  [updatePassword] resolves to true exactly when the update
    returned no error.  Only then is the recovery flag lowered and the page
    sent to [/]; in every case exactly one toast is shown, and user, room
    code and [localStorage] are untouched. *)
Theorem updatePassword_outcome
  (w : AuthWorld) (newPassword : string) (s : State) :
  let '(ok, s', events) := updatePassword w newPassword s in
  (ok = true <-> updateUser w newPassword = Returned None)
  /\ (ok = true ->
      isPasswordRecovery s' = false
      /\ filter isNavigate events = [Navigate "/" true])
  /\ (ok = false -> s' = s /\ filter isNavigate events = [])
  /\ List.length (filter isToast events) = 1
  /\ user s' = user s /\ roomCode s' = roomCode s
  /\ localStorage s' = localStorage s.
Proof.
  unfold updatePassword.
  destruct (updateUser w newPassword) as [[msg |] |];
    repeat split; intros; try discriminate; auto.
Qed.

(** X27.  The auth-state listener is idempotent, never touches the
    loading flag or [localStorage], and changes user or room code only on
    [SIGNED_OUT], where it clears both and lowers the recovery flag. *)
Theorem onAuthStateChange_effect (event : string) (session : bool) (s : State) :
  let s' := onAuthStateChange event session s in
  onAuthStateChange event session s' = s'
  /\ isLoading s' = isLoading s
  /\ localStorage s' = localStorage s
  /\ (user s' <> user s \/ roomCode s' <> roomCode s -> event = "SIGNED_OUT")
  /\ (event = "SIGNED_OUT" ->
      user s' = None /\ roomCode s' = None /\ isPasswordRecovery s' = false).
Proof.
  unfold onAuthStateChange.
  destruct (String.eqb_spec event "PASSWORD_RECOVERY") as [-> | N1];
    [| destruct (String.eqb_spec event "SIGNED_IN") as [-> | N2];
       [| destruct (String.eqb_spec event "SIGNED_OUT") as [-> | N3]]];
    destruct session; destruct s as [u rc l [|] ls];
    cbn; repeat split; intros;
    try reflexivity; try discriminate; try congruence;
    match goal with
    | H : _ \/ _ |- _ => destruct H; congruence
    end.
Qed.

End AuthContextFacts.

(** * Instances of the conditional properties *)

Lemma serve_v1_all_or_nothing_witness :
  let res := run Fixtures.parse V1 Scenarios.stuckWorld
               Scenarios.teacherRequest Scenarios.busyStore in
  fresh Scenarios.busyStore
  /\ ((isSuccess (fst (fst res)) = true
       /\ exists quizRow rows,
           quizzes (snd (fst res)) = (quizzes Scenarios.busyStore ++ [quizRow])%list
           /\ quiz_questions (snd (fst res))
              = (quiz_questions Scenarios.busyStore ++ rows)%list
           /\ rows <> []
           /\ Forall (fun row => quiz_id row = id quizRow) rows)
      \/ (isSuccess (fst (fst res)) = false
          /\ quiz_questions (snd (fst res))
             = quiz_questions Scenarios.busyStore
          /\ (quizzes (snd (fst res)) = quizzes Scenarios.busyStore
              \/ exists quizRow,
                  quizzes (snd (fst res))
                  = (quizzes Scenarios.busyStore ++ [quizRow])%list
                  /\ id quizRow = next_id Scenarios.busyStore
                  /\ quizzes_delete_ok Scenarios.stuckWorld (id quizRow) = false
                  /\ In (EvDeleteQuiz (id quizRow)) (snd res)))).
Proof.
  intros res.
  assert (Hf : fresh Scenarios.busyStore)
    by (intros row [<- | []]; simpl; lia).
  split; [exact Hf |].
  apply (serve_v1_all_or_nothing Fixtures.parse Scenarios.stuckWorld
           Scenarios.teacherRequest Scenarios.busyStore
           (snd (fst res)) (fst (fst res)) (snd res) Hf).
  vm_compute; reflexivity.
Defined.

Lemma serve_v1_status_codes_witness :
  let w := Fixtures.world Fixtures.oneGood_text Fixtures.sixDigits true in
  let res := run Fixtures.parse V1 w Scenarios.studentRequest Fixtures.emptyStore in
  let r := fst (fst res) in
  status r = 403%Z
  /\ (status r = 200%Z <-> isFailure r = false)
  /\ (isFailure r = true ->
      (status r = 401%Z <-> unauthenticated w Scenarios.studentRequest = true)
      /\ (status r = 403%Z <-> forbidden w Scenarios.studentRequest = true)
      /\ (status r = 500%Z <->
          unauthenticated w Scenarios.studentRequest = false
          /\ forbidden w Scenarios.studentRequest = false)).
Proof.
  intros w res r. split; [vm_compute; reflexivity |].
  apply (serve_v1_status_codes Fixtures.parse w Scenarios.studentRequest
           Fixtures.emptyStore (snd (fst res)) r (snd res)).
  vm_compute; reflexivity.
Defined.

Lemma unauthorized_requests_touch_nothing_witness :
  let w := Fixtures.world Fixtures.oneGood_text Fixtures.sixDigits true in
  let res := run Fixtures.parse V2 w Scenarios.studentRequest Scenarios.busyStore in
  forbidden w Scenarios.studentRequest = true
  /\ isSuccess (fst (fst res)) = false
  /\ snd (fst res) = Scenarios.busyStore
  /\ existsb isGenerate (snd res) = false
  /\ existsb isStoreWrite (snd res) = false
  /\ (unauthenticated w Scenarios.studentRequest = true ->
      existsb isTeacherLookup (snd res) = false).
Proof.
  intros w res.
  assert (H : forbidden w Scenarios.studentRequest = true)
    by (vm_compute; reflexivity).
  split; [exact H |].
  apply (unauthorized_requests_touch_nothing Fixtures.parse V2 w
           Scenarios.studentRequest Scenarios.busyStore
           (snd (fst res)) (fst (fst res)) (snd res) (or_intror H)).
  vm_compute; reflexivity.
Defined.

Lemma success_effect_witness :
  let w := Fixtures.world Fixtures.oneGood_text Fixtures.sixDigits true in
  let res := run Fixtures.parse V2 w Scenarios.teacherRequest Scenarios.busyStore in
  isSuccess (fst (fst res)) = true
  /\ exists authHeader user params questions rows,
      authorization Scenarios.teacherRequest = Some authHeader
      /\ auth_getUser w (replaceFirst "Bearer " "" authHeader) = Some user
      /\ teachers_single w (user_id user) = true
      /\ json Scenarios.teacherRequest = inr params
      /\ questionsToInsert (next_id Scenarios.busyStore) questions = inr rows
      /\ let columns :=
           mkNewQuiz (quizTitle params) (quizDescription params)
                     (timePerQuestion params) (roomCodeOf (Math_random w))
                     (user_id user) "classnode" in
         snd (fst res)
         = mkStore (quizzes Scenarios.busyStore
                      ++ [mkQuizRow (next_id Scenarios.busyStore) columns])
                   (quiz_questions Scenarios.busyStore ++ rows)
                   (S (next_id Scenarios.busyStore))
         /\ fst (fst res)
            = mkResponse 200
                (SuccessBody
                   (mkQuizSummary (next_id Scenarios.busyStore)
                                  (quizTitle params) (quizDescription params)
                                  (roomCodeOf (Math_random w))
                                  (List.length questions))
                   questions).
Proof.
  intros w res.
  assert (H : isSuccess (fst (fst res)) = true) by (vm_compute; reflexivity).
  split; [exact H |].
  apply (success_effect Fixtures.parse V2 w Scenarios.teacherRequest
           Scenarios.busyStore (snd (fst res)) (fst (fst res)) (snd res));
    [vm_compute; reflexivity | exact H].
Defined.

Lemma questionsToInsert_keeps_order_witness :
  let batch := [Fixtures.goodQuestion; Fixtures.badQuestion] in
  let rows :=
    [mkQuestionRow 7 (JStr "2+2?")
       (JArr [JStr "1"; JStr "2"; JStr "3"; JStr "4"]) (JNum 3%Q) 1;
     mkQuestionRow 7 (JStr "Q")
       (JArr [JStr "a"; JStr "b"; JStr "c"]) (JNum 5%Q) 2] in
  questionsToInsert 7 batch = inr rows
  /\ List.length rows = List.length batch
  /\ forall i row,
      nth_error rows i = Some row ->
      order_num row = i + 1 /\ quiz_id row = 7
      /\ exists q,
          nth_error batch i = Some q
          /\ Js.get q "text" = inr (text row)
          /\ Js.get q "options" = inr (options row)
          /\ Js.get q "correctOption" = inr (correct_option row).
Proof.
  intros batch rows.
  assert (H : questionsToInsert 7 batch = inr rows) by reflexivity.
  split; [exact H |].
  exact (questionsToInsert_keeps_order 7 batch rows H).
Defined.

Lemma bare_token_is_accepted_witness :
  let w := Fixtures.world Fixtures.oneGood_text Fixtures.sixDigits true in
  "tok-teacher" <> ""
  /\ includes "Bearer " "tok-teacher" = false
  /\ run Fixtures.parse V1 w
       (mkRequest "POST" (Some ("Bearer " ++ "tok-teacher"))
                  (inr (Fixtures.algebra 1))) Fixtures.emptyStore
     = run Fixtures.parse V1 w
         (mkRequest "POST" (Some "tok-teacher") (inr (Fixtures.algebra 1)))
         Fixtures.emptyStore.
Proof.
  intros w.
  assert (H1 : "tok-teacher" <> "") by discriminate.
  assert (H2 : includes "Bearer " "tok-teacher" = false)
    by (vm_compute; reflexivity).
  split; [exact H1 |]. split; [exact H2 |].
  exact (bare_token_is_accepted Fixtures.parse V1 w Fixtures.emptyStore
           "POST" "tok-teacher" (inr (Fixtures.algebra 1)) H1 H2).
Defined.

Lemma validateQuestions_idempotent_witness :
  let questions :=
    [JObj [("id", JNum 9%Q); ("correctOption", JNum 0%Q);
           ("options", JArr [JStr "a"; JStr "b"; JStr "c"; JStr "d"]);
           ("text", JStr "Q")]] in
  let out :=
    [JObj [("text", JStr "Q");
           ("options", JArr [JStr "a"; JStr "b"; JStr "c"; JStr "d"]);
           ("correctOption", JNum 0%Q)]] in
  validateQuestions questions = inr out
  /\ validateQuestions out = inr out
  /\ Forall (fun q => exists t o c,
                 q = JObj [("text", t); ("options", o); ("correctOption", c)])
            out.
Proof.
  intros questions out.
  assert (H : validateQuestions questions = inr out) by reflexivity.
  split; [exact H |].
  exact (validateQuestions_idempotent questions out H).
Defined.

Lemma serve_v1_persists_wellformed_rows_witness :
  let w := Fixtures.world Fixtures.oneGood_text Fixtures.sixDigits true in
  let res := run Fixtures.parse V1 w Scenarios.teacherRequest Scenarios.busyStore in
  List.forallb wellFormedRow (quiz_questions Scenarios.busyStore) = true
  /\ List.length (quiz_questions (snd (fst res))) = 2
  /\ List.forallb wellFormedRow (quiz_questions (snd (fst res))) = true.
Proof.
  intros w res.
  assert (H : List.forallb wellFormedRow (quiz_questions Scenarios.busyStore)
              = true) by reflexivity.
  split; [exact H |]. split; [vm_compute; reflexivity |].
  apply (proj2 (serve_v1_persists_wellformed_rows Fixtures.parse w
                  Scenarios.teacherRequest Scenarios.busyStore
                  (snd (fst res)) (fst (fst res)) (snd res)
                  ltac:(vm_compute; reflexivity))).
  exact H.
Defined.

Lemma validateQuestions_accepts_wellformed_witness :
  List.forallb spec_validQuestion [Fixtures.goodQuestion; Fixtures.goodQuestion]
  = true
  /\ validateQuestions [Fixtures.goodQuestion; Fixtures.goodQuestion]
     = inr (List.map normalize [Fixtures.goodQuestion; Fixtures.goodQuestion]).
Proof.
  assert (H : List.forallb spec_validQuestion
                [Fixtures.goodQuestion; Fixtures.goodQuestion] = true)
    by (vm_compute; reflexivity).
  split; [exact H |].
  exact (validateQuestions_accepts_wellformed _ H).
Defined.

Lemma refused_quiz_insert_ends_the_run_witness :
  let res := run Fixtures.parse V1 Scenarios.refusingWorld
               Scenarios.teacherRequest Scenarios.busyStore in
  let nq := mkNewQuiz "AI Generated: Mathematics - Algebra"
                      "AI-generated quiz on Algebra (Easy level)"
                      30 "9UD4RI" "teacher-1" "classnode" in
  In (EvInsertQuiz nq None) (snd res)
  /\ fst (fst res) = failure 500 "Failed to create quiz"
  /\ snd (fst res) = Scenarios.busyStore
  /\ exists before, snd res = (before ++ [EvInsertQuiz nq None])%list
                    /\ existsb isStoreWrite before = false.
Proof.
  intros res nq.
  assert (H : In (EvInsertQuiz nq None) (snd res)) by (vm_compute; auto 10).
  split; [exact H |].
  apply (refused_quiz_insert_ends_the_run Fixtures.parse V1
           Scenarios.refusingWorld Scenarios.teacherRequest Scenarios.busyStore
           (snd (fst res)) (fst (fst res)) (snd res) nq);
    [vm_compute; reflexivity | exact H].
Defined.

Lemma store_calls_need_parsed_batch_witness :
  let w := Fixtures.world Fixtures.oneBad_text Fixtures.sixDigits true in
  let res := run Fixtures.parse V2 w Scenarios.teacherRequest Fixtures.emptyStore in
  existsb isStoreWrite (snd res) = true
  /\ exists params raw batch,
      json Scenarios.teacherRequest = inr params
      /\ configured (apiKeyOf V2 w) = true
      /\ generate w (vendorOf V2) (promptOf V2 params) = Completion raw
      /\ Fixtures.parse (cleanOf V2 raw) = Some (JArr batch)
      /\ batch <> [].
Proof.
  intros w res.
  assert (H : existsb isStoreWrite (snd res) = true)
    by (vm_compute; reflexivity).
  split; [exact H |].
  apply (store_calls_need_parsed_batch Fixtures.parse V2 w
           Scenarios.teacherRequest Fixtures.emptyStore
           (snd (fst res)) (fst (fst res)) (snd res));
    [vm_compute; reflexivity | exact H].
Defined.

Lemma run_preserves_existing_rows_witness :
  let w := Fixtures.world Fixtures.oneGood_text Fixtures.sixDigits false in
  let res := run Fixtures.parse V2 w Scenarios.teacherRequest Scenarios.busyStore in
  fresh Scenarios.busyStore
  /\ (forall row, In row (quizzes Scenarios.busyStore) ->
                  In row (quizzes (snd (fst res))))
  /\ (exists added,
         quiz_questions (snd (fst res))
         = (quiz_questions Scenarios.busyStore ++ added)%list)
  /\ next_id Scenarios.busyStore <= next_id (snd (fst res))
  /\ fresh (snd (fst res)).
Proof.
  intros w res.
  assert (Hf : fresh Scenarios.busyStore)
    by (intros row [<- | []]; simpl; lia).
  split; [exact Hf |].
  apply (run_preserves_existing_rows Fixtures.parse V2 w
           Scenarios.teacherRequest Scenarios.busyStore
           (snd (fst res)) (fst (fst res)) (snd res) Hf).
  vm_compute; reflexivity.
Defined.

Lemma clean_v1_unwraps_fenced_block_witness :
  every noBacktick Fixtures.oneGood_text = true
  /\ clean_v1 (fence ++ "json" ++ nl ++ Fixtures.oneGood_text ++ nl ++ fence)
     = trim Fixtures.oneGood_text
  /\ clean_v1 (fence ++ nl ++ Fixtures.oneGood_text ++ nl ++ fence)
     = trim Fixtures.oneGood_text.
Proof.
  assert (H : every noBacktick Fixtures.oneGood_text = true)
    by (vm_compute; reflexivity).
  split; [exact H |].
  exact (clean_v1_unwraps_fenced_block Fixtures.oneGood_text H).
Defined.

Lemma handleSubmit_refuses_blank_fields_witness :
  (every isWhiteSpace (subject Scenarios.blankForm) = true
   \/ every isWhiteSpace (topic Scenarios.blankForm) = true)
  /\ handleSubmit Fixtures.clientWorld Scenarios.blankForm
     = [ToastError "Please fill in all required fields"].
Proof.
  assert (H : every isWhiteSpace (subject Scenarios.blankForm) = true
              \/ every isWhiteSpace (topic Scenarios.blankForm) = true)
    by (left; vm_compute; reflexivity).
  split; [exact H |].
  exact (handleSubmit_refuses_blank_fields Fixtures.clientWorld
           Scenarios.blankForm H).
Defined.

Lemma handleSubmit_reports_expired_session_witness :
  includes "401" "Edge Function returned status 401" = true
  /\ filter isClientToast (handleSubmit Scenarios.expiredClient Scenarios.form)
     = [ToastError "Session expired. Please log in again."]
  /\ filter isNavigation (handleSubmit Scenarios.expiredClient Scenarios.form)
     = [].
Proof.
  assert (H : includes "401" "Edge Function returned status 401" = true)
    by (vm_compute; reflexivity).
  split; [exact H |].
  apply (handleSubmit_reports_expired_session Scenarios.expiredClient
           Scenarios.form "Edge Function returned status 401").
  - vm_compute; discriminate.
  - vm_compute; discriminate.
  - vm_compute; split; discriminate.
  - left; reflexivity.
  - left; reflexivity.
  - exact H.
Defined.

(** * Properties of the quiz preview *)

Module QuizPreviewFacts.

Import QuizPreview.

Lemma renderFrom_marked (correctOption : Q) :
  forall options base,
    List.length (filter markedCorrect (renderFrom base options correctOption)) <= 1
    /\ (List.length (filter markedCorrect (renderFrom base options correctOption)) = 1
        <-> exists i, base <= i < base + List.length options
                      /\ Qeq (inject_Z (Z.of_nat i)) correctOption).
Proof.
  intros options. induction options as [| o rest IH]; intros base.
  - cbn. split; [lia |]. split; [discriminate | intros [i [H _]]; lia].
  - destruct (IH (S base)) as [Hle Hiff].
    cbn [renderFrom filter markedCorrect List.length].
    destruct (Qeq_bool (inject_Z (Z.of_nat base)) correctOption) eqn:E.
    + apply Qeq_bool_iff in E.
      assert (Hnone : List.length
                        (filter markedCorrect
                           (renderFrom (S base) rest correctOption)) = 0).
      { destruct (List.length
                    (filter markedCorrect
                       (renderFrom (S base) rest correctOption)))
          as [| [| n]] eqn:L; [reflexivity | | lia].
        destruct (proj1 Hiff eq_refl) as [i [Hi Hq]].
        assert (Hz : Z.of_nat i = Z.of_nat base).
        { apply inject_Z_injective. rewrite Hq, E. reflexivity. }
        lia. }
      cbn [List.length]. rewrite Hnone. split; [lia |].
      split; [| reflexivity]. intros _. exists base. split; [lia | exact E].
    + split; [exact Hle |]. rewrite Hiff. split.
      * intros [i [Hi Hq]]. exists i. split; [lia | exact Hq].
      * intros [i [Hi Hq]]. exists i. split; [| exact Hq].
        destruct (Nat.eq_dec i base) as [-> | N]; [| lia].
        apply Qeq_bool_iff in Hq. congruence.
Qed.

Lemma renderFrom_nth (correctOption : Q) :
  forall options base i o,
    nth_error (renderFrom base options correctOption) i = Some o ->
    badge o = 65 + (base + i)
    /\ nth_error options i = Some (optionText o)
    /\ (markedCorrect o = true
        <-> Qeq (inject_Z (Z.of_nat (base + i))) correctOption).
Proof.
  intros options. induction options as [| opt rest IH]; intros base i o H.
  - destruct i; discriminate.
  - destruct i as [| i]; cbn in H.
    + inversion H; subst; cbn. rewrite Nat.add_0_r.
      repeat split; try apply Qeq_bool_iff; auto.
    + destruct (IH (S base) i o H) as [Hb [Hn Hm]].
      replace (base + S i) with (S base + i) by lia. auto.
Qed.

(** X28.  The preview renders one entry per option, lettered from A on in
    order.  It marks an option as correct exactly when its index equals
    [correctOption], so it marks at most one option, and exactly one if and
    only if [correctOption] is an index into the options; for any other
    value, a fractional one for instance, no option is marked. *)
Theorem preview_marks_the_correct_option
  (options : list string) (correctOption : Q) :
  let rendered := renderOptions options correctOption in
  List.length rendered = List.length options
  /\ (forall i o,
         nth_error rendered i = Some o ->
         badge o = 65 + i
         /\ nth_error options i = Some (optionText o)
         /\ (markedCorrect o = true
             <-> Qeq (inject_Z (Z.of_nat i)) correctOption))
  /\ List.length (filter markedCorrect rendered) <= 1
  /\ (List.length (filter markedCorrect rendered) = 1
      <-> exists i, i < List.length options
                    /\ Qeq (inject_Z (Z.of_nat i)) correctOption).
Proof.
  unfold renderOptions. cbn zeta. split.
  - generalize 0. induction options as [| o rest IH]; intros n; cbn; auto.
  - split; [intros i o H; apply (renderFrom_nth correctOption options 0 i o H) |].
    destruct (renderFrom_marked correctOption options 0) as [Hle Hiff].
    split; [exact Hle |]. rewrite Hiff.
    split; intros [i [Hi Hq]]; exists i; (split; [lia | exact Hq]).
Qed.

End QuizPreviewFacts.
